(** * The AI-description pipeline of [ongi_api/artifacts]

    A shallow embedding of the streaming description pipeline:
    - [Services]: [OllamaService._create_prompt] and the generator
      [OllamaService.generate_artifact_description] (services.py);
    - [Models]: the [Artifact] row and [Artifact.needs_ai_description]
      (models.py);
    - [Views]: the generator [event_stream] of
      [generate_artifact_description_stream], [get_artifact_description]
      and [regenerate_artifact_description] (views.py).

    Python strings are byte strings in UTF-8 here; concatenation, emptiness
    and the search for an ASCII key are the same on both readings. *)

From Stdlib Require Import ZArith List Bool Lia.
From Stdlib Require Import Strings.String Strings.Ascii Numbers.DecimalString.
From Stdlib Require Import Sorting.Permutation Sorting.Sorted.
Import ListNotations.
Open Scope list_scope.
Open Scope string_scope.

Set Warnings "-register-all".

(** ** The fragment of Python the code relies on *)
Module Py.

(** What [json.loads] can return.  A float is kept up to what the code can
    observe of it, which is whether it is zero.  A dict is an association list
    read by its first binding for a key. *)
Inductive json : Type :=
| JNone
| JBool (b : bool)
| JInt (z : Z)
| JFloat (nonzero : bool)
| JStr (s : string)
| JList (l : list json)
| JDict (d : list (string * json)).

(** Exceptions below [Exception], by the classes the code tells apart;
    [msg] is [str(e)]. *)
Inductive exn : Type :=
| TimeoutException (msg : string)
| ConnectError (msg : string)
| OtherException (msg : string).

Definition str (e : exn) : string :=
  match e with
  | TimeoutException m | ConnectError m | OtherException m => m
  end.

(** [bool(s)] for a string. *)
Definition nonempty (s : string) : bool :=
  match s with
  | EmptyString => false
  | String _ _ => true
  end.

(** [bool(x)] for an optional string: [None] and [''] are both false. *)
Definition truthy_opt (x : option string) : bool :=
  match x with
  | None => false
  | Some s => nonempty s
  end.

(** [bool(v)] for a decoded JSON value. *)
Definition truthy (v : json) : bool :=
  match v with
  | JNone => false
  | JBool b => b
  | JInt z => negb (z =? 0)%Z
  | JFloat nonzero => nonzero
  | JStr s => nonempty s
  | JList l => match l with [] => false | _ :: _ => true end
  | JDict d => match d with [] => false | _ :: _ => true end
  end.

(** [type(v).__name__]. *)
Definition type_name (v : json) : string :=
  match v with
  | JNone => "NoneType"
  | JBool _ => "bool"
  | JInt _ => "int"
  | JFloat _ => "float"
  | JStr _ => "str"
  | JList _ => "list"
  | JDict _ => "dict"
  end.

(** [needle in hay] on strings. *)
Fixpoint is_substring (needle hay : string) : bool :=
  String.prefix needle hay
  || match hay with
     | EmptyString => false
     | String _ hay' => is_substring needle hay'
     end.

Fixpoint lookup (key : string) (d : list (string * json)) : option json :=
  match d with
  | [] => None
  | (k, v) :: d' => if String.eqb k key then Some v else lookup key d'
  end.

(** [key in data].  The wording of the interpreter's own messages is
    CPython's; nothing below depends on it. *)
Definition contains (data : json) (key : string) : exn + bool :=
  match data with
  | JDict d => inr (match lookup key d with Some _ => true | None => false end)
  | JList l =>
      inr (existsb (fun v => match v with JStr s => String.eqb s key | _ => false end) l)
  | JStr s => inr (is_substring key s)
  | _ => inl (OtherException
                ("argument of type '" ++ type_name data ++ "' is not iterable"))
  end.

(** [data[key]] for a string [key]. *)
Definition getitem (data : json) (key : string) : exn + json :=
  match data with
  | JDict d =>
      match lookup key d with
      | Some v => inr v
      | None => inl (OtherException ("'" ++ key ++ "'"))
      end
  | JList _ => inl (OtherException "list indices must be integers or slices, not str")
  | JStr _ => inl (OtherException "string indices must be integers, not 'str'")
  | _ => inl (OtherException ("'" ++ type_name data ++ "' object is not subscriptable"))
  end.

(** [data.get(key, default)]. *)
Definition get (data : json) (key : string) (default : json) : exn + json :=
  match data with
  | JDict d =>
      match lookup key d with
      | Some v => inr v
      | None => inr default
      end
  | _ => inl (OtherException
                ("'" ++ type_name data ++ "' object has no attribute 'get'"))
  end.

(** [f'{n}'] for an int. *)
Definition format_int (n : Z) : string := NilZero.string_of_int (Z.to_int n).

End Py.

(** ** services.py *)
Module Services.
Import Py.

(** The dicts the generator yields: [{'chunk': v}], [{'done': True}] and
    [{'error': msg}]. *)
Inductive event : Type :=
| Chunk (v : json)
| Done
| Error (msg : string).

(** One line of [response.iter_lines()], by what [line.strip()] and
    [json.loads(line)] make of it. *)
Inductive line : Type :=
| Blank
| Undecodable (msg : string)
| Decoded (data : json).

(** What the model service does with one request: [httpx.stream] raises on
    entry, or a response arrives whose body is read line by line until it
    ends, or until reading the next line, or decoding it with anything but a
    [JSONDecodeError], raises [fault]. *)
Inductive connection : Type :=
| Fails (e : exn)
| Responds (status_code : Z) (body : list line) (fault : option exn).

Definition PROMPT_HEAD : string :=
  "당신은 한국 문화재 전문가입니다. 다음 유물에 대해 자세하고 흥미롭게 설명해주세요.

📌 유물 정보:
- 유물명: ".

Definition PROMPT_GUIDE : string :=
  "

📝 설명 작성 가이드:
1. 역사적 배경과 시대적 맥락 (2-3문장)
2. 유물의 특징과 제작 기법 (2-3문장)
3. 문화적/예술적 가치와 의의 (1-2문장)

⚠️ 주의사항:
- 자연스럽고 이해하기 쉬운 한국어로 작성
- 전문 용어는 쉽게 풀어서 설명
- 흥미로운 이야기나 에피소드 포함
- 총 200-300자 내외로 작성
- 존댓말 사용하지 않고 평서문으로 작성

설명:".

Definition NL : string := String (ascii_of_nat 10) "".

Definition TIME_PERIOD_BULLET : string := "• 시대: ".
Definition ESTIMATED_YEAR_BULLET : string := "• 추정 연도: ".
Definition ORIGIN_LOCATION_BULLET : string := "• 출토지: ".

Definition TIME_PERIOD_LABEL : string := NL ++ TIME_PERIOD_BULLET.
Definition ESTIMATED_YEAR_LABEL : string := NL ++ ESTIMATED_YEAR_BULLET.
Definition ORIGIN_LOCATION_LABEL : string := NL ++ ORIGIN_LOCATION_BULLET.

(** [f'{x}'] for an optional string. *)
Definition text (x : option string) : string :=
  match x with
  | Some s => s
  | None => "None"
  end.

Definition _create_prompt (artifact_name : string)
    (time_period estimated_year origin_location : option string) : string :=
  let prompt := PROMPT_HEAD ++ artifact_name in
  let prompt :=
    if truthy_opt time_period
    then prompt ++ (TIME_PERIOD_LABEL ++ text time_period) else prompt in
  let prompt :=
    if truthy_opt estimated_year
    then prompt ++ (ESTIMATED_YEAR_LABEL ++ text estimated_year) else prompt in
  let prompt :=
    if truthy_opt origin_location
    then prompt ++ (ORIGIN_LOCATION_LABEL ++ text origin_location) else prompt in
  prompt ++ PROMPT_GUIDE.

(** *** The generator

    A computation that yields events and then either raises or returns. *)
Definition gen (A : Type) : Type := (list event * (exn + A))%type.

Definition ret {A} (a : A) : gen A := ([], inr a).
Definition yield (e : event) : gen unit := ([e], inr tt).
Definition raise {A} (e : exn) : gen A := ([], inl e).
Definition lift {A} (x : exn + A) : gen A := ([], x).

Definition bind {A B} (m : gen A) (f : A -> gen B) : gen B :=
  match m with
  | (evs, inl e) => (evs, inl e)
  | (evs, inr a) => let (evs', r) := f a in ((evs ++ evs')%list, r)
  end.

Notation "x <- m ;; k" := (bind m (fun x => k))
  (at level 61, m at next level, right associativity).
Notation "m ;; k" := (bind m (fun _ => k))
  (at level 61, right associativity).

(** How one turn of the [for] loop ends. *)
Inductive flow : Type := Next | Break.

(** The body of the inner [try] for a line that decoded. *)
Definition on_record (data : json) : gen flow :=
  has <- lift (contains data "response") ;;
  (if has : bool
   then v <- lift (getitem data "response") ;; yield (Chunk v)
   else ret tt) ;;
  done <- lift (get data "done" (JBool false)) ;;
  if truthy done then yield Done ;; ret Break else ret Next.

(** One turn of [for line in response.iter_lines()]. *)
Definition on_line (l : line) : gen flow :=
  match l with
  | Blank => ret Next
  | Undecodable msg => yield (Error ("JSON decode error: " ++ msg)) ;; ret Next
  | Decoded data => on_record data
  end.

Fixpoint iter_lines (body : list line) (fault : option exn) : gen unit :=
  match body with
  | [] =>
      match fault with
      | Some e => raise e
      | None => ret tt
      end
  | l :: rest =>
      f <- on_line l ;;
      match f with
      | Break => ret tt
      | Next => iter_lines rest fault
      end
  end.

(** The [with httpx.stream(...) as response:] block. *)
Definition with_response (c : connection) : gen unit :=
  match c with
  | Fails e => raise e
  | Responds status_code body fault =>
      if negb (status_code =? 200)%Z
      then yield (Error ("Ollama API error: " ++ format_int status_code))
      else iter_lines body fault
  end.

(** The outer [try] with its three handlers. *)
Definition handlers (m : gen unit) : list event :=
  match m with
  | (evs, inr tt) => evs
  | (evs, inl (TimeoutException _)) => (evs ++ [Error "Ollama API timeout"])%list
  | (evs, inl (ConnectError _)) =>
      (evs ++ [Error "Cannot connect to Ollama. Is it running?"])%list
  | (evs, inl (OtherException msg)) =>
      (evs ++ [Error ("Unexpected error: " ++ msg)])%list
  end.

(** [ollama] is the model service seen from the client: what it answers to the
    request that carries a given prompt.  The result is the sequence of events
    of the generator when it is read to its end. *)
Definition generate_artifact_description (ollama : string -> connection)
    (artifact_name : string)
    (time_period estimated_year origin_location : option string) : list event :=
  let prompt :=
    _create_prompt artifact_name time_period estimated_year origin_location in
  handlers (with_response (ollama prompt)).

End Services.

(** ** models.py *)
Module Models.
Import Py.

(** A row of the table [artifacts].  A [DateTimeField] is a count of
    microseconds since the epoch, the resolution of [datetime]; the key and
    the two bookkeeping timestamps play no part below and are left out. *)
Record Artifact : Type := {
  name : string;
  description : option string;
  time_period : option string;
  estimated_year : option string;
  origin_location : option string;
  status : string;
  image_count : Z;
  ai_description : option string;
  ai_description_generated_at : option Z;
  ai_model_version : option string
}.

(** [timedelta(days=n)], in microseconds. *)
Definition timedelta (days : Z) : Z := days * 86400 * 1000000.

(** [now] is the value of [timezone.now()]. *)
Definition needs_ai_description (now : Z) (self : Artifact) : bool :=
  if negb (truthy_opt (ai_description self)) then true
  else
    match ai_description_generated_at self with
    | Some generated_at =>
        let age := (now - generated_at)%Z in
        (age >? timedelta 30)%Z
    | None => false
    end.

End Models.

(** ** views.py *)
Module Views.
Import Py Services Models.

(** The dict that [event_stream] hands to [json.dumps] for one SSE frame,
    by its ['type']. *)
Inductive frame : Type :=
| chunk (content : string)
| error (message : string)
| complete (full_text : string).

Definition DQUOTE : string := String (ascii_of_nat 34) "".

(** The [TypeError] of [full_description += v] when [v] is not a [str]. *)
Definition cannot_concatenate (v : json) : exn :=
  OtherException
    ("can only concatenate str (not " ++ DQUOTE ++ type_name v ++ DQUOTE
     ++ ") to str").

(** An artifact with the two cached fields set to new values. *)
Definition update_fields (row : Artifact)
    (ai_description' : option string) (generated_at' : option Z) : Artifact :=
  {| name := name row;
     description := description row;
     time_period := time_period row;
     estimated_year := estimated_year row;
     origin_location := origin_location row;
     status := status row;
     image_count := image_count row;
     ai_description := ai_description';
     ai_description_generated_at := generated_at';
     ai_model_version := ai_model_version row |}.

(** [self.save(update_fields=['ai_description',
    'ai_description_generated_at'])]: the two fields of the object [self] are
    written over those of the stored [row]; the write happens whole or, when
    [save_fault] is raised, not at all. *)
Definition save (save_fault : option exn) (row self : Artifact)
  : exn + Artifact :=
  match save_fault with
  | Some e => inl e
  | None =>
      inr (update_fields row (ai_description self)
             (ai_description_generated_at self))
  end.

Section EventStream.

(** The surroundings of one request: the model service, the clock and the
    fate of the database write. *)
Variable ollama : string -> connection.
Variable now : Z.
Variable save_fault : option exn.

(** The stored row of the artifact that [get_object_or_404] found. *)
Variable artifact : Artifact.

(** The [for chunk in ...] loop inside the [try]: the frames it yields, then
    the exception that left it or the row as it stands in the store.  The two
    assignments of the [Done] branch change the object of the request; the
    store changes with [save]. *)
Fixpoint for_chunks (events : list event) (full_description : string)
  : list frame * (exn + Artifact) :=
  match events with
  | [] => ([], inr artifact)
  | Chunk v :: rest =>
      match v with
      | JStr content =>
          let (frames, r) := for_chunks rest (full_description ++ content) in
          (chunk content :: frames, r)
      | _ => ([], inl (cannot_concatenate v))
      end
  | Error msg :: _ => ([error msg], inr artifact)
  | Done :: _ =>
      let self := update_fields artifact (Some full_description) (Some now) in
      match save save_fault artifact self with
      | inr row => ([complete full_description], inr row)
      | inl e => ([], inl e)
      end
  end.

(** The frames sent to the client and the stored row afterwards. *)
Definition event_stream : list frame * Artifact :=
  let events :=
    generate_artifact_description ollama (name artifact) (time_period artifact)
      (estimated_year artifact) (origin_location artifact) in
  match for_chunks events "" with
  | (frames, inr row) => (frames, row)
  | (frames, inl e) => ((frames ++ [error (str e)])%list, artifact)
  end.

End EventStream.

(** The response of [get_artifact_description], by key. *)
Module Response.
Record t : Type := {
  description : string;
  is_ai_generated : bool;
  generated_at : option Z;
  needs_regeneration : bool;
  artifact_name : string;
  time_period : option string
}.
End Response.

Definition NO_DESCRIPTION : string := "설명이 없습니다.".

(** [x or default] for an optional string. *)
Definition or_else (x : option string) (default : string) : string :=
  match x with
  | Some s => if nonempty s then s else default
  | None => default
  end.

Definition get_artifact_description (now : Z) (artifact : Artifact) : Response.t :=
  let fallback := (or_else (Models.description artifact) NO_DESCRIPTION, false) in
  let (description, is_ai) :=
    match ai_description artifact with
    | Some s => if nonempty s then (s, true) else fallback
    | None => fallback
    end in
  {| Response.description := description;
     Response.is_ai_generated := is_ai;
     Response.generated_at := ai_description_generated_at artifact;
     Response.needs_regeneration := needs_ai_description now artifact;
     Response.artifact_name := name artifact;
     Response.time_period := Models.time_period artifact |}.

(** The stored row after [regenerate_artifact_description]; when the write
    raises, the request fails and the row stays. *)
Definition regenerate_artifact_description (save_fault : option exn)
    (artifact : Artifact) : Artifact :=
  let self := update_fields artifact None None in
  match save save_fault artifact self with
  | inr row => row
  | inl _ => artifact
  end.

End Views.

(** ** The contracts of the specification, as predicates on runs *)
Module Contract.
Import Py Services Models Views.

(** [Done] and [Error] are the terminal events of §3. *)
Definition terminal (e : event) : bool :=
  match e with
  | Chunk _ => false
  | Done | Error _ => true
  end.

(** No event follows a terminal event; so there is at most one of them. *)
Definition terminal_is_last (events : list event) : Prop :=
  forall pre e post,
    events = (pre ++ e :: post)%list -> terminal e = true -> post = [].

(** The [Error] event of a line that [json.loads] rejected. *)
Definition decode_error (e : event) : Prop :=
  exists detail, e = Error ("JSON decode error: " ++ detail).

(** The text events of a run of chunks. *)
Definition chunks (texts : list string) : list event :=
  map (fun s => Chunk (JStr s)) texts.

(** Concatenation in arrival order. *)
Definition join (texts : list string) : string :=
  fold_right String.append "" texts.

(** The contents of the [chunk] frames among [frames], in order. *)
Fixpoint contents (frames : list frame) : list string :=
  match frames with
  | [] => []
  | chunk content :: rest => content :: contents rest
  | _ :: rest => contents rest
  end.

(** The frames that end a stream. *)
Definition closing (f : frame) : bool :=
  match f with
  | chunk _ => false
  | error _ | complete _ => true
  end.

Definition is_error (f : frame) : bool :=
  match f with
  | error _ => true
  | _ => false
  end.

(** An event after which the generator reads on. *)
Definition running (e : event) : Prop :=
  match e with
  | Chunk _ => True
  | Done => False
  | Error _ => decode_error e
  end.

(** The stored row once the [Done] branch has saved [full_text] at [now]. *)
Definition persisted (artifact : Artifact) (full_text : string) (now : Z)
  : Artifact :=
  update_fields artifact (Some full_text) (Some now).

(** The stored row once [regenerate_artifact_description] has saved. *)
Definition cleared (artifact : Artifact) : Artifact :=
  update_fields artifact None None.

(** How the loop of [event_stream] ends once it has forwarded the text chunks
    at the head of the events: by the events that remain, the text gathered,
    the frames still sent and the exception or the stored row. *)
Inductive ending (now : Z) (save_fault : option exn) (artifact : Artifact)
  : list event -> string -> list frame -> exn + Artifact -> Prop :=
| Exhausted full_text :
    ending now save_fault artifact [] full_text [] (inr artifact)
| Not_text v rest full_text :
    (forall s, v <> JStr s) ->
    ending now save_fault artifact (Chunk v :: rest) full_text []
      (inl (cannot_concatenate v))
| Errored msg rest full_text :
    ending now save_fault artifact (Error msg :: rest) full_text [error msg]
      (inr artifact)
| Save_failed e rest full_text :
    save_fault = Some e ->
    ending now save_fault artifact (Done :: rest) full_text [] (inl e)
| Completed rest full_text :
    save_fault = None ->
    ending now save_fault artifact (Done :: rest) full_text
      [complete full_text] (inr (persisted artifact full_text now)).

(** The invariant of §3 on the two cached fields. *)
Definition paired (row : Artifact) : Prop :=
  ai_description_generated_at row <> None <-> ai_description row <> None.

(** The operations of the core on a stored row. *)
Inductive operation : Type :=
| Generate (ollama : string -> connection) (now : Z) (save_fault : option exn)
| Reset (save_fault : option exn)
| Get (now : Z).

Definition run (op : operation) (row : Artifact) : Artifact :=
  match op with
  | Generate ollama now save_fault => snd (event_stream ollama now save_fault row)
  | Reset save_fault => regenerate_artifact_description save_fault row
  | Get _ => row
  end.

(** The optional lines of §4.1: the labelled fields in their fixed order,
    those that are present only. *)
Definition optional_lines (time_period estimated_year origin_location : option string)
  : list string :=
  map (fun '(label, x) => label ++ text x)
    (filter (fun '(_, x) => truthy_opt x)
       [(TIME_PERIOD_LABEL, time_period);
        (ESTIMATED_YEAR_LABEL, estimated_year);
        (ORIGIN_LOCATION_LABEL, origin_location)]).

(** The line of one optional field, when the field is present. *)
Definition line_if_present (label : string) (x : option string) : list string :=
  if truthy_opt x then [label ++ text x] else [].

Definition is_newline (c : ascii) : bool := Ascii.eqb c (ascii_of_nat 10).

(** [s.split('\n')]: the lines of a text. *)
Fixpoint splitlines (s : string) : list string :=
  match s with
  | EmptyString => [""]
  | String c s' =>
      if is_newline c then "" :: splitlines s'
      else
        match splitlines s' with
        | l :: ls => String c l :: ls
        | [] => [String c ""]
        end
  end.

(** A text with no line break in it. *)
Fixpoint single_line (s : string) : bool :=
  match s with
  | EmptyString => true
  | String c s' => negb (is_newline c) && single_line s'
  end.

(** The lines of two texts put end to end: the last line of the first runs
    on into the first line of the second. *)
Fixpoint glue (la lb : list string) : list string :=
  match la with
  | [] => lb
  | [l] =>
      match lb with
      | l' :: ls => (l ++ l') :: ls
      | [] => [l]
      end
  | l :: la' => l :: glue la' lb
  end.

(** The lines of the fixed opening before the line of the name, the start of
    that line, and the lines of the fixed guidance after the optional lines. *)
Definition HEAD_LINES : list string := removelast (splitlines PROMPT_HEAD).
Definition NAME_BULLET : string := last (splitlines PROMPT_HEAD) "".
Definition GUIDE_LINES : list string := tl (splitlines PROMPT_GUIDE).

(** The line of the name. *)
Definition name_line (artifact_name : string) : string :=
  NAME_BULLET ++ artifact_name.

(** [needle] occurs in [hay]. *)
Definition occurs (needle hay : string) : Prop :=
  exists before after, hay = before ++ needle ++ after.

(** An absent description: null or empty. *)
Definition absent (x : option string) : Prop := x = None \/ x = Some "".

End Contract.

(** ** Scenarios *)
Module Scenario.
Import Py Services Models Views Contract.

(** The row of the scenarios of §8. *)
Definition bronze_mirror : Artifact :=
  {| name := "청동거울";
     description := Some "고려 시대의 거울";
     time_period := Some "고려";
     estimated_year := None;
     origin_location := Some "개성";
     status := "verified";
     image_count := 12;
     ai_description := None;
     ai_description_generated_at := None;
     ai_model_version := Some "llama3.1:8b" |}.

(** A row that holds a description from an earlier generation. *)
Definition described_mirror : Artifact :=
  persisted bronze_mirror "고려시대의" 1762000000000000.

(** The model service of the scenario: two chunks and the closing record. *)
Definition two_chunks_then_done (prompt : string) : connection :=
  Responds 200
    [Decoded (JDict [("response", JStr "고려"); ("done", JBool false)]);
     Decoded (JDict [("response", JStr "시대의"); ("done", JBool false)]);
     Decoded (JDict [("done", JBool true)])]
    None.

(** The model service of the scenario that answers HTTP 500. *)
Definition internal_server_error (prompt : string) : connection :=
  Responds 500 [] None.

(** The model service that answers with the closing record alone. *)
Definition done_at_once (prompt : string) : connection :=
  Responds 200 [Decoded (JDict [("done", JBool true)])] None.

(** A body of records that carry text and a false ['done'] flag. *)
Definition text_records (texts : list string) : list line :=
  map (fun s => Decoded (JDict [("response", JStr s); ("done", JBool false)]))
    texts.

(** A body whose first line does not decode and whose second is the last
    record of a generation. *)
Definition body_decode_error_first : list line :=
  [Undecodable "Expecting value: line 1 column 1 (char 0)";
   Decoded (JDict [("response", JStr "a"); ("done", JBool true)])].

(** A body whose second line does not decode, between two records. *)
Definition body_decode_error_second : list line :=
  [Decoded (JDict [("response", JStr "고려"); ("done", JBool false)]);
   Undecodable "Expecting value: line 1 column 1 (char 0)";
   Decoded (JDict [("response", JStr "시대의"); ("done", JBool true)])].

End Scenario.

(** ** services.py: the synchronous entry point *)
Module Simple.
Import Py Services Views.

(** The loop of [generate_simple] over the events of the generator: the text
    gathered on return, or the exception raised. *)
Fixpoint for_chunk (events : list event) (full_text : string) : exn + string :=
  match events with
  | [] => inr full_text
  | Chunk v :: rest =>
      match v with
      | JStr s => for_chunk rest (full_text ++ s)
      | _ => inl (cannot_concatenate v)
      end
  | Error msg :: _ => inl (OtherException msg)
  | Done :: _ => inr full_text
  end.

(** [generate_simple] asks for a description by the name alone. *)
Definition generate_simple (ollama : string -> connection)
    (artifact_name : string) : exn + string :=
  for_chunk (generate_artifact_description ollama artifact_name None None None) "".

(** [line.strip()] is empty. *)
Definition is_blank (l : line) : bool :=
  match l with
  | Blank => true
  | _ => false
  end.

(** The message of the [Error] event that the handlers of the generator
    yield for an exception. *)
Definition handler_message (e : exn) : string :=
  match e with
  | TimeoutException _ => "Ollama API timeout"
  | ConnectError _ => "Cannot connect to Ollama. Is it running?"
  | OtherException msg => "Unexpected error: " ++ msg
  end.

End Simple.

(** ** serializers.py: the two AI flags of [ArtifactSerializer] *)
Module Serializers.
Import Py Models.

Definition get_has_ai_description (obj : Artifact) : bool :=
  truthy_opt (ai_description obj).

(** [now] is the value of [timezone.now()] inside [needs_ai_description]. *)
Definition get_needs_ai_generation (now : Z) (obj : Artifact) : bool :=
  needs_ai_description now obj.

End Serializers.

(** ** More scenarios *)
Module Scenario2.
Import Py Services Models Views Contract.

(** A row with a name and nothing else: what [check_and_create_artifact]
    creates, here with 12 images. *)
Definition plain_mirror : Artifact :=
  {| name := "청동거울";
     description := None;
     time_period := None;
     estimated_year := None;
     origin_location := None;
     status := "auto_generated";
     image_count := 12;
     ai_description := None;
     ai_description_generated_at := None;
     ai_model_version := Some "llama3.1:8b" |}.

(** The closing record of a generation, as the model service sends it. *)
Definition closing_record : list (string * json) :=
  [("response", JStr ""); ("done", JBool true)].

End Scenario2.

(** ** models.py: linking feeds to artifacts *)
Module Linkage.
Import Py Models.

(** A row of the table of feeds, by the fields that
    [check_and_create_artifact] reads: the key, the artifact name the feed was
    posted under, the status, and the images that point to the feed. *)
Record Feed : Type := {
  feed_id : Z;
  feed_artifact_name : string;
  feed_status : string;
  images : list string
}.

(** The three tables: feeds, artifacts by primary key, and the links of
    [ArtifactFeed] as pairs of an artifact key and a feed key.  The order of
    a list is the order in which the database returns the rows. *)
Record Store : Type := {
  feeds : list Feed;
  artifacts : list (Z * Artifact);
  artifact_feeds : list (Z * Z)
}.

(** What an insert can raise: a primary key or a [unique_together] pair that
    is taken. *)
Inductive db_error : Type := IntegrityError.

(** [Feed.objects.filter(artifact_name=artifact_name, status='published')]. *)
Definition published (artifact_name : string) (f : Feed) : bool :=
  String.eqb (feed_artifact_name f) artifact_name
  && String.eqb (feed_status f) "published".

(** [feeds.annotate(img_count=Count('images')).aggregate(Sum('img_count'))],
    with [or 0] for the null sum of no rows. *)
Definition total_images (fs : list Feed) : Z :=
  fold_right (fun f acc => (Z.of_nat (List.length (images f)) + acc)%Z) 0%Z fs.

Definition named (artifact_name : string) (r : Z * Artifact) : bool :=
  String.eqb (name (snd r)) artifact_name.

(** [.first()] of a query with no ordering: the row with the least primary
    key. *)
Fixpoint first (rows : list (Z * Artifact)) : option (Z * Artifact) :=
  match rows with
  | [] => None
  | r :: rest =>
      match first rest with
      | None => Some r
      | Some r' => if (fst r <=? fst r')%Z then Some r else Some r'
      end
  end.

Definition has_key (k : Z) (rows : list (Z * Artifact)) : bool :=
  existsb (fun r => (fst r =? k)%Z) rows.

Definition has_link (artifact_id fid : Z) (links : list (Z * Z)) : bool :=
  existsb (fun l => (fst l =? artifact_id)%Z && (snd l =? fid)%Z) links.

(** The row that [Artifact.objects.create(name=..., image_count=...,
    status='auto_generated')] inserts: the other fields take the defaults of
    the model. *)
Definition new_artifact (artifact_name : string) (image_count : Z) : Artifact :=
  {| name := artifact_name;
     description := None;
     time_period := None;
     estimated_year := None;
     origin_location := None;
     status := "auto_generated";
     image_count := image_count;
     ai_description := None;
     ai_description_generated_at := None;
     ai_model_version := Some "llama3.1:8b" |}.

(** [existing_artifact.image_count = total_images]. *)
Definition set_image_count (a : Artifact) (image_count : Z) : Artifact :=
  {| name := name a;
     description := description a;
     time_period := time_period a;
     estimated_year := estimated_year a;
     origin_location := origin_location a;
     status := status a;
     image_count := image_count;
     ai_description := ai_description a;
     ai_description_generated_at := ai_description_generated_at a;
     ai_model_version := ai_model_version a |}.

(** [obj.save()] of a row that is stored under [k]. *)
Definition save_row (k : Z) (a : Artifact) (rows : list (Z * Artifact))
  : list (Z * Artifact) :=
  map (fun r => if (fst r =? k)%Z then (k, a) else r) rows.

(** [ArtifactFeed.objects.create(artifact=..., feed=...)] under
    [unique_together = ('artifact', 'feed')]. *)
Definition create_link (artifact_id fid : Z) (links : list (Z * Z))
  : db_error + list (Z * Z) :=
  if has_link artifact_id fid links then inl IntegrityError
  else inr (links ++ [(artifact_id, fid)])%list.

(** The loop of the first branch: a link for every feed.  The links made
    before an insert fails stay. *)
Fixpoint link_all (artifact_id : Z) (fs : list Feed) (links : list (Z * Z))
  : option db_error * list (Z * Z) :=
  match fs with
  | [] => (None, links)
  | f :: rest =>
      match create_link artifact_id (feed_id f) links with
      | inl e => (Some e, links)
      | inr links' => link_all artifact_id rest links'
      end
  end.

(** The loop of the second branch: [existing_feeds] is the result of the
    query as first read, which every later [in] test reuses. *)
Fixpoint link_missing (artifact_id : Z) (existing_feeds : list Z)
    (fs : list Feed) (links : list (Z * Z)) : option db_error * list (Z * Z) :=
  match fs with
  | [] => (None, links)
  | f :: rest =>
      if existsb (Z.eqb (feed_id f)) existing_feeds
      then link_missing artifact_id existing_feeds rest links
      else
        match create_link artifact_id (feed_id f) links with
        | inl e => (Some e, links)
        | inr links' => link_missing artifact_id existing_feeds rest links'
        end
  end.

(** [new_id] is the [uuid.uuid4()] that a new artifact gets.  The result is
    what the call returns or raises, with the store as the call leaves it. *)
Definition check_and_create_artifact (new_id : Z) (artifact_name : string)
    (s : Store) : (db_error + option (Z * Artifact)) * Store :=
  let fs := filter (published artifact_name) (feeds s) in
  let total := total_images fs in
  let existing_artifact := first (filter (named artifact_name) (artifacts s)) in
  match existing_artifact with
  | None =>
      if (total >=? 10)%Z then
        if has_key new_id (artifacts s)
        then (inl IntegrityError, s)
        else
          let artifact := new_artifact artifact_name total in
          let rows := (artifacts s ++ [(new_id, artifact)])%list in
          match link_all new_id fs (artifact_feeds s) with
          | (None, links) =>
              (inr (Some (new_id, artifact)),
               {| feeds := feeds s; artifacts := rows; artifact_feeds := links |})
          | (Some e, links) =>
              (inl e,
               {| feeds := feeds s; artifacts := rows; artifact_feeds := links |})
          end
      else (inr None, s)
  | Some (k, existing) =>
      let existing' := set_image_count existing total in
      let rows := save_row k existing' (artifacts s) in
      let existing_feeds :=
        map snd (filter (fun l => (fst l =? k)%Z) (artifact_feeds s)) in
      match link_missing k existing_feeds fs (artifact_feeds s) with
      | (None, links) =>
          (inr (Some (k, existing')),
           {| feeds := feeds s; artifacts := rows; artifact_feeds := links |})
      | (Some e, links) =>
          (inl e,
           {| feeds := feeds s; artifacts := rows; artifact_feeds := links |})
      end
  end.

(** The constraints of the schema: primary keys are unique, a link is unique
    and points to an artifact and to a feed that exist. *)
Record consistent (s : Store) : Prop := {
  feed_keys : NoDup (map feed_id (feeds s));
  artifact_keys : NoDup (map fst (artifacts s));
  link_unique : NoDup (artifact_feeds s);
  link_artifact :
    forall l, In l (artifact_feeds s) -> In (fst l) (map fst (artifacts s));
  link_feed :
    forall l, In l (artifact_feeds s) -> In (snd l) (map feed_id (feeds s))
}.

End Linkage.
(** ** Scenarios of the linkage *)
Module Scenario3.
Import Py Models Linkage.

(** Two published feeds of the mirror with six images each, a draft of the
    same name and a published feed of another artifact. *)
Definition six_images : list string :=
  ["1.jpg"; "2.jpg"; "3.jpg"; "4.jpg"; "5.jpg"; "6.jpg"].

Definition some_feeds : list Feed :=
  [ {| feed_id := 1; feed_artifact_name := "청동거울";
       feed_status := "published"; images := six_images |};
    {| feed_id := 2; feed_artifact_name := "청동거울";
       feed_status := "draft"; images := six_images |};
    {| feed_id := 3; feed_artifact_name := "백자";
       feed_status := "published"; images := six_images |};
    {| feed_id := 4; feed_artifact_name := "청동거울";
       feed_status := "published"; images := six_images |} ].

Definition fresh_store : Store :=
  {| feeds := some_feeds; artifacts := []; artifact_feeds := [] |}.

End Scenario3.

(** ** views.py: the list of artifacts *)
Module Listing.
Import Py Models.

(** A stored artifact with the time of its creation, the column that the list
    is ordered by. *)
Record Listed : Type := {
  created_at : Z;
  row : Artifact
}.

(** [request.query_params.get('status', 'verified')]. *)
Definition status_filter (status_param : option string) : string :=
  match status_param with
  | Some s => s
  | None => "verified"
  end.

Fixpoint insert_by_created (x : Listed) (l : list Listed) : list Listed :=
  match l with
  | [] => [x]
  | y :: l' =>
      if (created_at y <=? created_at x)%Z then x :: y :: l'
      else y :: insert_by_created x l'
  end.

(** [.order_by('-created_at')]: newest first.  The order among rows of one
    creation time is the database's; here they keep the order of the table. *)
Definition order_by_created_desc (l : list Listed) : list Listed :=
  fold_right insert_by_created [] l.

(** The rows that [artifact_list_view] hands to [ArtifactSerializer]. *)
Definition artifact_list_view (status_param : option string) (is_staff : bool)
    (table : list Listed) : list Listed :=
  let status_filter := status_filter status_param in
  if String.eqb status_filter "all" && is_staff then
    order_by_created_desc table
  else if String.eqb status_filter "all" then
    order_by_created_desc
      (filter (fun x => negb (String.eqb (status (row x)) "rejected")) table)
  else
    order_by_created_desc
      (filter (fun x => String.eqb (status (row x)) status_filter) table).

(** Newest first. *)
Definition newer_or_same (a b : Listed) : Prop :=
  (created_at b <= created_at a)%Z.

End Listing.

(** ** Scenarios of the list *)
Module Scenario4.
Import Py Models Scenario Scenario2 Listing.

(** A rejected artifact: the plain mirror with another status. *)
Definition rejected_mirror : Artifact :=
  {| name := "청동거울";
     description := None;
     time_period := None;
     estimated_year := None;
     origin_location := None;
     status := "rejected";
     image_count := 12;
     ai_description := None;
     ai_description_generated_at := None;
     ai_model_version := Some "llama3.1:8b" |}.

Definition some_table : list Listed :=
  [ {| created_at := 1761000000000000; row := bronze_mirror |};
    {| created_at := 1762000000000000; row := rejected_mirror |};
    {| created_at := 1761500000000000; row := plain_mirror |} ].

End Scenario4.

Import Py Services Models Views Contract Scenario.
Import Simple Serializers Scenario2 Linkage Scenario3 Listing Scenario4.

(** ** The generator of services.py *)

Lemma bind_lift_inr {A B} (a : A) (f : A -> gen B) :
  bind (lift (inr a)) f = f a.
Proof.
  unfold bind, lift. destruct (f a) as [evs r]. reflexivity.
Qed.

(** The record of a line that decoded to a dict: an optional chunk, then
    [Done] and the end of the loop when the ['done'] flag is true. *)
Lemma on_record_dict (d : list (string * json)) :
  on_record (JDict d) =
  ((match lookup "response" d with Some v => [Chunk v] | None => [] end)
   ++ (if truthy (match lookup "done" d with Some v => v | None => JBool false end)
       then [Done] else []),
   inr (if truthy (match lookup "done" d with Some v => v | None => JBool false end)
        then Break else Next))%list.
Proof.
  unfold on_record, contains, getitem, get.
  rewrite bind_lift_inr.
  destruct (lookup "response" d) as [v|];
    destruct (lookup "done" d) as [w|]; cbn;
    try destruct (truthy w); reflexivity.
Qed.

(** Anything else that decoded makes the body of the [try] raise before it
    yields. *)
Lemma on_record_not_dict (data : json) :
  (forall d, data <> JDict d) ->
  exists e, on_record data = ([], inl e).
Proof.
  intros Hnd. unfold on_record.
  destruct data; try (eexists; reflexivity).
  - cbn [contains]. rewrite bind_lift_inr.
    destruct (is_substring "response" s); eexists; reflexivity.
  - cbn [contains]. rewrite bind_lift_inr.
    destruct (existsb _ l); eexists; reflexivity.
  - exfalso. apply (Hnd d). reflexivity.
Qed.

Lemma on_line_shape (l : line) :
  match on_line l with
  | (evs, inr Next) => Forall running evs
  | (evs, inr Break) => exists mid, evs = (mid ++ [Done])%list /\ Forall running mid
  | (evs, inl _) => evs = []
  end.
Proof.
  destruct l as [ | msg | data ]; cbn [on_line].
  - constructor.
  - cbn. constructor; [ exists msg; reflexivity | constructor ].
  - destruct data;
      try (match goal with
           | |- context [on_record ?x] =>
               destruct (on_record_not_dict x) as [e ->];
               [ intros; discriminate | reflexivity ]
           end).
    rewrite on_record_dict.
    destruct (lookup "response" d) as [v|];
      destruct (truthy _); cbn.
    + exists [Chunk v]. split; [ reflexivity | repeat constructor ].
    + repeat constructor.
    + exists []. split; [ reflexivity | constructor ].
    + constructor.
Qed.

Lemma iter_lines_cons (l : line) (rest : list line) (fault : option exn) :
  iter_lines (l :: rest) fault =
  match on_line l with
  | (evs, inl e) => (evs, inl e)
  | (evs, inr Break) => (evs, inr tt)
  | (evs, inr Next) =>
      let (evs', r) := iter_lines rest fault in ((evs ++ evs')%list, r)
  end.
Proof.
  cbn [iter_lines]. unfold bind.
  destruct (on_line l) as [evs [e | [ | ]]]; try reflexivity.
  cbn. rewrite app_nil_r. reflexivity.
Qed.

(** The events of the read loop: events after which it reads on, then at most
    a closing [Done]; an exception leaves the loop without a [Done]. *)
Lemma iter_lines_shape (body : list line) (fault : option exn) :
  exists mid fin,
    fst (iter_lines body fault) = (mid ++ fin)%list
    /\ Forall running mid
    /\ (fin = [] \/ (fin = [Done] /\ snd (iter_lines body fault) = inr tt)).
Proof.
  induction body as [ | l rest IH ].
  - exists [], []. cbn. destruct fault; cbn; auto.
  - rewrite iter_lines_cons.
    pose proof (on_line_shape l) as Hl.
    destruct (on_line l) as [evs [e | [ | ]]].
    + subst evs. exists [], []. cbn. auto.
    + destruct IH as (mid & fin & Heq & Hmid & Hfin).
      destruct (iter_lines rest fault) as [evs' r]. cbn in Heq, Hfin |- *.
      subst evs'. exists (evs ++ mid)%list, fin.
      rewrite app_assoc. split; [ reflexivity | ].
      split; [ apply Forall_app; auto | exact Hfin ].
    + destruct Hl as (mid & -> & Hmid).
      exists mid, [Done]. cbn. auto.
Qed.

Lemma handlers_shape (m : gen unit) :
  exists fin, handlers m = (fst m ++ fin)%list
              /\ match snd m with
                 | inr _ => fin = []
                 | inl _ => exists msg, fin = [Error msg]
                 end.
Proof.
  destruct m as [evs [[m | m | m] | []]]; cbn.
  - eexists. split; [ reflexivity | eexists; reflexivity ].
  - eexists. split; [ reflexivity | eexists; reflexivity ].
  - eexists. split; [ reflexivity | eexists; reflexivity ].
  - exists []. rewrite app_nil_r. split; reflexivity.
Qed.

(** Every sequence of the generator: events after which it reads on, then at
    most one last event. *)
Lemma generate_shape (ollama : string -> connection) (artifact_name : string)
    (time_period estimated_year origin_location : option string) :
  exists mid fin,
    generate_artifact_description ollama artifact_name time_period
      estimated_year origin_location = (mid ++ fin)%list
    /\ Forall running mid
    /\ (List.length fin <= 1)%nat.
Proof.
  unfold generate_artifact_description.
  destruct (ollama _) as [e | status_code body fault]; cbn [with_response].
  - exists []. destruct e; eexists; cbn; repeat split; auto.
  - destruct (negb (status_code =? 200)%Z).
    + exists []. eexists. cbn. repeat split; auto.
    + destruct (iter_lines_shape body fault) as (mid & fin & Heq & Hmid & Hfin).
      destruct (handlers_shape (iter_lines body fault)) as (fin' & -> & Hfin').
      rewrite Heq.
      destruct Hfin as [-> | [-> Hr]].
      * exists mid, fin'. rewrite app_nil_r. repeat split; auto.
        destruct (snd (iter_lines body fault)).
        -- destruct Hfin' as [msg ->]. cbn. lia.
        -- subst fin'. cbn. lia.
      * rewrite Hr in Hfin'. subst fin'. exists mid, [Done].
        rewrite app_nil_r. repeat split; auto.
Qed.

Lemma followed_event_is_inner {A} (mid fin pre post : list A) (e : A) :
  (mid ++ fin)%list = (pre ++ e :: post)%list ->
  (List.length fin <= 1)%nat -> post <> [] -> In e mid.
Proof.
  revert pre. induction mid as [ | x mid IH ]; intros pre Heq Hfin Hpost.
  - cbn in Heq. subst fin. rewrite length_app in Hfin. cbn in Hfin.
    destruct post; [ congruence | cbn in Hfin; lia ].
  - destruct pre as [ | y pre ]; cbn in Heq; inversion Heq; subst.
    + left. reflexivity.
    + right. eapply IH; eauto.
Qed.

(** An event that is not the last one is a chunk or the report of a line that
    did not decode. *)
Lemma followed_event_running (ollama : string -> connection)
    (artifact_name : string)
    (time_period estimated_year origin_location : option string)
    (pre post : list event) (e : event) :
  generate_artifact_description ollama artifact_name time_period
    estimated_year origin_location = (pre ++ e :: post)%list ->
  post <> [] -> running e.
Proof.
  intros Heq Hpost.
  destruct (generate_shape ollama artifact_name time_period estimated_year
              origin_location) as (mid & fin & Hgen & Hmid & Hfin).
  rewrite Hgen in Heq.
  pose proof (followed_event_is_inner _ _ _ _ _ Heq Hfin Hpost) as Hin.
  rewrite Forall_forall in Hmid. auto.
Qed.

(** C4, as amended: in every sequence of events of one call of
    [generate_artifact_description], nothing follows a [Done] event and there
    is no second one, and a terminal event that is followed by another event
    is the [Error] event of a line that failed to deserialize, after which the
    generator reads on; the [Error] events of a bad status, a timeout, a
    failed connection or an unexpected fault are last. *)
Theorem only_decode_errors_are_followed (ollama : string -> connection)
    (artifact_name : string)
    (time_period estimated_year origin_location : option string)
    (pre post : list event) (e : event) :
  generate_artifact_description ollama artifact_name time_period
    estimated_year origin_location = (pre ++ e :: post)%list ->
  (e = Done -> post = [] /\ ~ In Done pre)
  /\ (terminal e = true -> post <> [] -> decode_error e).
Proof.
  intros Heq. split.
  - intros ->. split.
    + destruct post as [ | e' post ]; [ reflexivity | exfalso ].
      apply (followed_event_running _ _ _ _ _ _ _ _ Heq). discriminate.
    + intros Hin. apply in_split in Hin. destruct Hin as (p1 & p2 & ->).
      rewrite <- app_assoc in Heq. cbn in Heq.
      apply (followed_event_running _ _ _ _ _ _ _ _ Heq).
      destruct p2; discriminate.
  - intros Hterm Hpost.
    pose proof (followed_event_running _ _ _ _ _ _ _ _ Heq Hpost) as Hrun.
    destruct e; cbn in Hterm, Hrun; [ discriminate | contradiction | exact Hrun ].
Qed.

Lemma only_decode_errors_are_followed_witness :
  generate_artifact_description
    (fun _ => Responds 200 body_decode_error_first None) "x" None None None
  = [Error "JSON decode error: Expecting value: line 1 column 1 (char 0)";
     Chunk (JStr "a"); Done]
  /\ decode_error
       (Error "JSON decode error: Expecting value: line 1 column 1 (char 0)").
Proof.
  split; [ reflexivity | ].
  apply (proj2 (only_decode_errors_are_followed
                  (fun _ => Responds 200 body_decode_error_first None)
                  "x" None None None []
                  [Chunk (JStr "a"); Done]
                  (Error "JSON decode error: Expecting value: line 1 column 1 (char 0)")
                  eq_refl)).
  - reflexivity.
  - discriminate.
Defined.

(** C4, as stated, fails: after the [Error] event of the first line come a
    [Chunk] and a [Done]. *)
Lemma decode_error_is_followed :
  ~ terminal_is_last
      (generate_artifact_description
         (fun _ => Responds 200 body_decode_error_first None) "x" None None None).
Proof.
  intros H.
  specialize (H [] (Error "JSON decode error: Expecting value: line 1 column 1 (char 0)")
                [Chunk (JStr "a"); Done] eq_refl eq_refl).
  discriminate H.
Qed.

(** C9: when the model service answers with a status other than 200, which
    every non-success status is, the events of the call are exactly one
    [Error] event that names the status: no [Chunk], no [Done], no second
    request. *)
Theorem bad_status_single_error (ollama : string -> connection)
    (artifact_name : string)
    (time_period estimated_year origin_location : option string)
    (status_code : Z) (body : list line) (fault : option exn) :
  ollama (_create_prompt artifact_name time_period estimated_year origin_location)
    = Responds status_code body fault ->
  status_code <> 200%Z ->
  generate_artifact_description ollama artifact_name time_period
    estimated_year origin_location
  = [Error ("Ollama API error: " ++ format_int status_code)].
Proof.
  intros Hresp Hstatus.
  unfold generate_artifact_description. rewrite Hresp. cbn [with_response].
  apply Z.eqb_neq in Hstatus. rewrite Hstatus. reflexivity.
Qed.

Lemma bad_status_single_error_witness :
  generate_artifact_description
    (fun _ => Responds 500 [Decoded (JDict [("response", JStr "a")])] None)
    "청동거울" (Some "고려") None (Some "개성")
  = [Error "Ollama API error: 500"].
Proof.
  apply (bad_status_single_error
           (fun _ => Responds 500 [Decoded (JDict [("response", JStr "a")])] None)
           "청동거울" (Some "고려") None (Some "개성") 500
           [Decoded (JDict [("response", JStr "a")])] None).
  - reflexivity.
  - discriminate.
Defined.

(** ** The aggregator of views.py *)

Lemma append_assoc (a b c : string) : (a ++ b) ++ c = a ++ (b ++ c).
Proof.
  induction a as [ | x a IH ]; cbn; [ reflexivity | rewrite IH; reflexivity ].
Qed.

Lemma append_empty_r (a : string) : a ++ "" = a.
Proof.
  induction a as [ | x a IH ]; cbn; [ reflexivity | rewrite IH; reflexivity ].
Qed.

Lemma contents_chunks (texts : list string) : contents (map chunk texts) = texts.
Proof.
  induction texts as [ | s texts IH ]; cbn; [ reflexivity | rewrite IH; reflexivity ].
Qed.

Lemma last_of_chunks (texts : list string) (prior : list frame) (f : frame) :
  map chunk texts = (prior ++ [f])%list -> closing f = false.
Proof.
  revert prior. induction texts as [ | s texts IH ]; intros prior Heq.
  - destruct prior; discriminate.
  - destruct prior as [ | g prior ]; cbn in Heq; inversion Heq; subst.
    + reflexivity.
    + eapply IH; eauto.
Qed.

Lemma for_chunks_shape (now : Z) (save_fault : option exn) (artifact : Artifact)
    (events : list event) (full_description : string) :
  exists texts remaining tail r,
    events = (chunks texts ++ remaining)%list
    /\ for_chunks now save_fault artifact events full_description
       = ((map chunk texts ++ tail)%list, r)
    /\ ending now save_fault artifact remaining
         (full_description ++ join texts) tail r.
Proof.
  revert full_description.
  induction events as [ | [ v | | msg ] rest IH ]; intros acc; cbn [for_chunks].
  - exists [], [], [], (inr artifact). cbn. rewrite append_empty_r.
    repeat split. constructor.
  - destruct v;
      try match goal with
          | |- context [cannot_concatenate ?v] =>
              exists [], (Chunk v :: rest), [], (inl (cannot_concatenate v));
              cbn; rewrite append_empty_r; repeat split;
              constructor; intros; discriminate
          end.
    destruct (IH (acc ++ s)) as (texts & remaining & tail & r & Hev & Heq & Hend).
    rewrite Heq. exists (s :: texts), remaining, tail, r.
    split; [ cbn; rewrite Hev; reflexivity | ].
    split; [ reflexivity | ].
    cbn [join fold_right]. fold (join texts).
    rewrite <- append_assoc. exact Hend.
  - unfold save. destruct save_fault as [ e | ] eqn:Hsave.
    + exists [], (Done :: rest), [], (inl e). cbn. rewrite append_empty_r.
      repeat split. constructor. reflexivity.
    + exists [], (Done :: rest), [complete acc]. eexists. cbn.
      rewrite append_empty_r. repeat split. constructor. reflexivity.
  - exists [], (Error msg :: rest), [error msg], (inr artifact). cbn.
    repeat split. constructor.
Qed.

(** Every stream, by the events of the generator: the text chunks at their
    head are forwarded; then the events are over and the stream stops with no
    closing frame, or an [error] frame ends it, or the chunks were followed by
    [Done] alone, the write succeeded and a [complete] frame ends it.  Only
    the last changes the stored row. *)
Lemma event_stream_shape (ollama : string -> connection) (now : Z)
    (save_fault : option exn) (artifact : Artifact) :
  exists texts remaining,
    generate_artifact_description ollama (name artifact)
      (Models.time_period artifact) (estimated_year artifact)
      (origin_location artifact) = (chunks texts ++ remaining)%list
    /\ ((remaining = []
         /\ event_stream ollama now save_fault artifact
            = (map chunk texts, artifact))
        \/ (exists msg,
              remaining <> []
              /\ event_stream ollama now save_fault artifact
                 = ((map chunk texts ++ [error msg])%list, artifact))
        \/ (save_fault = None /\ remaining = [Done]
            /\ event_stream ollama now save_fault artifact
               = ((map chunk texts ++ [complete (join texts)])%list,
                  persisted artifact (join texts) now))).
Proof.
  unfold event_stream.
  destruct (for_chunks_shape now save_fault artifact
              (generate_artifact_description ollama (name artifact)
                 (Models.time_period artifact) (estimated_year artifact)
                 (origin_location artifact)) "")
    as (texts & remaining & tail & r & Hgen & -> & Hend).
  exists texts, remaining. split; [ exact Hgen | ].
  cbn [String.append] in Hend.
  inversion Hend; subst.
  - left. rewrite app_nil_r. auto.
  - right. left. eexists. split; [ discriminate | ].
    rewrite app_nil_r. reflexivity.
  - right. left. exists msg. split; [ discriminate | reflexivity ].
  - right. left. exists (str e). split; [ discriminate | ].
    rewrite app_nil_r. reflexivity.
  - right. right. split; [ reflexivity | ]. split; [ | reflexivity ].
    destruct rest as [ | e rest ]; [ reflexivity | exfalso ].
    apply (followed_event_running _ _ _ _ _ _ _ _ Hgen). discriminate.
Qed.

(** A stream lacks a closing frame only when the events of the generator
    are text chunks and nothing else. *)
Lemma stream_closes_unless_events_run_out (ollama : string -> connection)
    (now : Z) (save_fault : option exn) (artifact : Artifact) :
  (exists texts,
      generate_artifact_description ollama (name artifact)
        (Models.time_period artifact) (estimated_year artifact)
        (origin_location artifact) = chunks texts
      /\ event_stream ollama now save_fault artifact
         = (map chunk texts, artifact))
  \/ (exists prior f,
         fst (event_stream ollama now save_fault artifact) = (prior ++ [f])%list
         /\ closing f = true).
Proof.
  destruct (event_stream_shape ollama now save_fault artifact)
    as (texts & remaining & Hgen
        & [[-> Hrun] | [(msg & _ & Hrun) | (_ & _ & Hrun)]]).
  - left. exists texts. rewrite app_nil_r in Hgen. auto.
  - right. exists (map chunk texts), (error msg). rewrite Hrun. auto.
  - right. exists (map chunk texts), (complete (join texts)). rewrite Hrun. auto.
Qed.

Lemma for_chunks_chunks (now : Z) (save_fault : option exn) (artifact : Artifact)
    (texts : list string) (rest : list event) (full_description : string) :
  for_chunks now save_fault artifact (chunks texts ++ rest)%list full_description
  = let (frames, r) :=
      for_chunks now save_fault artifact rest (full_description ++ join texts) in
    ((map chunk texts ++ frames)%list, r).
Proof.
  revert full_description.
  induction texts as [ | s texts IH ]; intros acc; cbn [chunks map app for_chunks].
  - cbn [join fold_right]. rewrite append_empty_r.
    destruct (for_chunks _ _ _ rest acc). reflexivity.
  - fold (chunks texts). rewrite IH.
    cbn [join fold_right]. fold (join texts). rewrite append_assoc.
    destruct (for_chunks _ _ _ rest _). reflexivity.
Qed.

(** C1: in every run whose stream ends with a [complete] frame, which are
    the runs whose events are text chunks closed by [Done] and whose write
    succeeds, the [full_text] of that frame is the concatenation, in arrival
    order, of the contents of the [chunk] frames before it, and the same
    string is stored as [ai_description], with the time of the write; and
    every run whose events are text chunks closed by [Done], with a write that
    succeeds, forwards each chunk and ends with the [complete] frame of their
    concatenation. *)
Theorem complete_frame_is_concatenation (ollama : string -> connection)
    (now : Z) (save_fault : option exn) (artifact : Artifact) :
  (forall prior full_text,
      fst (event_stream ollama now save_fault artifact)
      = (prior ++ [complete full_text])%list ->
      (exists texts,
          generate_artifact_description ollama (name artifact)
            (Models.time_period artifact) (estimated_year artifact)
            (origin_location artifact) = (chunks texts ++ [Done])%list
          /\ prior = map chunk texts /\ save_fault = None)
      /\ full_text = join (contents prior)
      /\ ai_description (snd (event_stream ollama now save_fault artifact))
         = Some full_text
      /\ ai_description_generated_at
           (snd (event_stream ollama now save_fault artifact)) = Some now)
  /\ (forall texts,
         generate_artifact_description ollama (name artifact)
           (Models.time_period artifact) (estimated_year artifact)
           (origin_location artifact) = (chunks texts ++ [Done])%list ->
         save_fault = None ->
         fst (event_stream ollama now save_fault artifact)
         = (map chunk texts ++ [complete (join texts)])%list).
Proof.
  split.
  - intros prior full_text Hlast.
    destruct (event_stream_shape ollama now save_fault artifact)
      as (texts & remaining & Hgen
          & [[_ Hrun] | [(msg & _ & Hrun) | (Hsave & -> & Hrun)]]);
      rewrite Hrun in Hlast |- *; cbn [fst snd] in Hlast |- *.
    + apply last_of_chunks in Hlast. discriminate.
    + apply app_inj_tail in Hlast. destruct Hlast as [_ Hlast]. discriminate.
    + apply app_inj_tail in Hlast. destruct Hlast as [<- Hlast].
      inversion Hlast; subst. rewrite contents_chunks.
      split; [ exists texts; auto | auto ].
  - intros texts Hgen ->.
    unfold event_stream. rewrite Hgen, for_chunks_chunks.
    cbn. reflexivity.
Qed.

Lemma complete_frame_is_concatenation_witness :
  fst (event_stream two_chunks_then_done 1762000000000000 None bronze_mirror)
  = [chunk "고려"; chunk "시대의"; complete "고려시대의"]
  /\ "고려시대의" = join (contents [chunk "고려"; chunk "시대의"])
  /\ ai_description
       (snd (event_stream two_chunks_then_done 1762000000000000 None bronze_mirror))
     = Some "고려시대의"
  /\ ai_description_generated_at
       (snd (event_stream two_chunks_then_done 1762000000000000 None bronze_mirror))
     = Some 1762000000000000%Z.
Proof.
  split.
  - apply (proj2 (complete_frame_is_concatenation two_chunks_then_done
                    1762000000000000 None bronze_mirror)
             ["고려"; "시대의"]); reflexivity.
  - apply (proj1 (complete_frame_is_concatenation two_chunks_then_done
                    1762000000000000 None bronze_mirror)
             [chunk "고려"; chunk "시대의"] "고려시대의").
    reflexivity.
Defined.

(** C5: in every run whose stream ends with an [error] frame, the stored row
    is the row from before the call: [ai_description] and
    [ai_description_generated_at] keep their values, and the text gathered so
    far is dropped. *)
Theorem error_leaves_row_unchanged (ollama : string -> connection)
    (now : Z) (save_fault : option exn) (artifact : Artifact)
    (prior : list frame) (message : string) :
  fst (event_stream ollama now save_fault artifact)
  = (prior ++ [error message])%list ->
  snd (event_stream ollama now save_fault artifact) = artifact
  /\ ai_description (snd (event_stream ollama now save_fault artifact))
     = ai_description artifact
  /\ ai_description_generated_at (snd (event_stream ollama now save_fault artifact))
     = ai_description_generated_at artifact.
Proof.
  intros Hlast.
  assert (Hrow : snd (event_stream ollama now save_fault artifact) = artifact).
  { destruct (event_stream_shape ollama now save_fault artifact)
      as (texts & remaining & _ & [[_ Hrun] | [(msg & _ & Hrun) | (_ & _ & Hrun)]]);
      rewrite Hrun in Hlast |- *; cbn [fst snd] in Hlast |- *;
      try reflexivity.
    apply app_inj_tail in Hlast. destruct Hlast as [_ Hlast]. discriminate. }
  rewrite Hrow. auto.
Qed.

Lemma error_leaves_row_unchanged_witness :
  fst (event_stream internal_server_error 1762000500000000 None described_mirror)
  = [error "Ollama API error: 500"]
  /\ snd (event_stream internal_server_error 1762000500000000 None described_mirror)
     = described_mirror.
Proof.
  split; [ reflexivity | ].
  apply (error_leaves_row_unchanged internal_server_error 1762000500000000 None
           described_mirror [] "Ollama API error: 500").
  reflexivity.
Defined.

(** C10: when the events of the generator are a [Done] with nothing before
    it and the write succeeds, the stream is the one [complete] frame with an
    empty [full_text], and the row is stored with the empty string as
    [ai_description] and the time of the write as
    [ai_description_generated_at]; on that row [get_artifact_description]
    answers [is_ai_generated = false] with the fallback description, and
    [needs_ai_description] is true, at any later time. *)
Theorem done_without_chunks_stores_empty (ollama : string -> connection)
    (now : Z) (save_fault : option exn) (artifact : Artifact) :
  generate_artifact_description ollama (name artifact)
    (Models.time_period artifact) (estimated_year artifact)
    (origin_location artifact) = [Done] ->
  save_fault = None ->
  let row := snd (event_stream ollama now save_fault artifact) in
  fst (event_stream ollama now save_fault artifact) = [complete ""]
  /\ ai_description row = Some ""
  /\ ai_description_generated_at row = Some now
  /\ forall later,
       Response.is_ai_generated (get_artifact_description later row) = false
       /\ Response.description (get_artifact_description later row)
          = or_else (description artifact) NO_DESCRIPTION
       /\ Response.needs_regeneration (get_artifact_description later row) = true
       /\ needs_ai_description later row = true.
Proof.
  intros Hgen -> row. subst row.
  unfold event_stream. rewrite Hgen. cbn.
  repeat split; reflexivity.
Qed.

Lemma done_without_chunks_stores_empty_witness :
  fst (event_stream done_at_once 1762000000000000 None bronze_mirror)
  = [complete ""]
  /\ Response.description
       (get_artifact_description 1762000000000001
          (snd (event_stream done_at_once 1762000000000000 None bronze_mirror)))
     = "고려 시대의 거울".
Proof.
  pose proof (done_without_chunks_stores_empty done_at_once 1762000000000000
                None bronze_mirror eq_refl eq_refl) as H.
  cbv zeta in H. destruct H as (Hframes & _ & _ & Hget).
  split; [ exact Hframes | ].
  destruct (Hget 1762000000000001%Z) as (_ & Hdesc & _). exact Hdesc.
Defined.

(** The stored row after each operation. *)
Lemma run_cases (op : operation) (row : Artifact) :
  match op with
  | Generate ollama now save_fault =>
      run op row = row
      \/ (save_fault = None
          /\ exists full_text, run op row = persisted row full_text now)
  | Reset save_fault =>
      run op row = match save_fault with
                   | None => cleared row
                   | Some _ => row
                   end
  | Get _ => run op row = row
  end.
Proof.
  destruct op as [ollama now save_fault | save_fault | now]; cbn [run].
  - destruct (event_stream_shape ollama now save_fault row)
      as (texts & remaining & _
          & [[_ Hrun] | [(msg & _ & Hrun) | (Hsave & _ & Hrun)]]);
      rewrite Hrun; cbn [snd]; eauto.
  - unfold regenerate_artifact_description, save.
    destruct save_fault; reflexivity.
  - reflexivity.
Qed.

(** C6: every operation of the core keeps the two cached fields paired: if
    [ai_description_generated_at] is non-null exactly when [ai_description]
    is before the operation, so it is after it.  A stream leaves the row as
    it was or, when it completes, sets both fields in one write; Reset sets
    both fields to null in one write, or leaves the row when the write fails;
    Get leaves the row. *)
Theorem operations_keep_fields_paired (op : operation) (row : Artifact) :
  paired row ->
  paired (run op row)
  /\ match op with
     | Generate ollama now save_fault =>
         run op row = row
         \/ (save_fault = None
             /\ exists full_text, run op row = persisted row full_text now)
     | Reset save_fault =>
         run op row = match save_fault with
                      | None => cleared row
                      | Some _ => row
                      end
     | Get _ => run op row = row
     end.
Proof.
  intros Hrow. split; [ | apply run_cases ].
  pose proof (run_cases op row) as Hrun.
  destruct op as [ollama now save_fault | [ e | ] | now].
  - destruct Hrun as [-> | (_ & full_text & ->)]; [ exact Hrow | ].
    unfold paired. cbn. split; discriminate.
  - rewrite Hrun. exact Hrow.
  - rewrite Hrun. unfold paired. cbn. tauto.
  - rewrite Hrun. exact Hrow.
Qed.

Lemma operations_keep_fields_paired_witness :
  paired (run (Reset None)
            (run (Generate two_chunks_then_done 1762000000000000 None)
               bronze_mirror)).
Proof.
  apply (operations_keep_fields_paired (Reset None)
           (run (Generate two_chunks_then_done 1762000000000000 None)
              bronze_mirror)).
  apply (operations_keep_fields_paired
           (Generate two_chunks_then_done 1762000000000000 None) bronze_mirror).
  unfold paired. cbn. tauto.
Defined.

Lemma iter_lines_text_records (texts : list string) :
  iter_lines (text_records texts) None = (chunks texts, inr tt).
Proof.
  induction texts as [ | s texts IH ]; [ reflexivity | ].
  cbn [text_records map]. fold (text_records texts).
  rewrite iter_lines_cons. cbn [on_line]. rewrite on_record_dict. cbn.
  rewrite IH. reflexivity.
Qed.

(** C2 fails on the code: when the model service answers 200 and its body
    ends before a record whose ['done'] flag is true, the generator ends
    without a [Done] or [Error] event and [event_stream] falls out of its loop:
    the frames are the [chunk] frames alone, none of them closing, and none at
    all for an empty body; nothing is stored. *)
Theorem body_without_done_closes_silently (texts : list string) (now : Z)
    (save_fault : option exn) (artifact : Artifact) :
  event_stream (fun _ => Responds 200 (text_records texts) None) now save_fault
    artifact = (map chunk texts, artifact)
  /\ existsb closing (map chunk texts) = false
  /\ fst (event_stream (fun _ => Responds 200 [] None) now save_fault artifact)
     = [].
Proof.
  split; [ | split ].
  - unfold event_stream, generate_artifact_description.
    cbn [with_response Z.eqb Pos.eqb negb].
    rewrite iter_lines_text_records. cbn [handlers].
    pose proof (for_chunks_chunks now save_fault artifact texts [] "") as H.
    rewrite app_nil_r in H. rewrite H. cbn. rewrite app_nil_r. reflexivity.
  - induction texts as [ | s texts IH ]; [ reflexivity | exact IH ].
  - reflexivity.
Qed.

Lemma handlers_app (evs : list event) (m : gen unit) :
  handlers (let (evs', r) := m in ((evs ++ evs')%list, r))
  = (evs ++ handlers m)%list.
Proof.
  destruct m as [evs' [[msg | msg | msg] | []]]; cbn;
    try rewrite app_assoc; reflexivity.
Qed.

Lemma chunks_no_done (texts : list string) : ~ In Done (chunks texts).
Proof.
  induction texts as [ | s texts IH ]; cbn; [ tauto | ].
  intros [H | H]; [ discriminate | auto ].
Qed.

(** Lines that yield text chunks only leave the loop reading. *)
Lemma iter_lines_reads_on (pre : list line) :
  forall texts,
    iter_lines pre None = (chunks texts, inr tt) ->
    forall rest fault,
      iter_lines (pre ++ rest) fault
      = let (evs, r) := iter_lines rest fault in ((chunks texts ++ evs)%list, r).
Proof.
  induction pre as [ | l pre IH ]; intros texts Hpre rest fault.
  - cbn in Hpre. inversion Hpre as [Htexts].
    destruct texts; [ | discriminate ].
    cbn. destruct (iter_lines rest fault). reflexivity.
  - rewrite <- app_comm_cons. rewrite iter_lines_cons in Hpre |- *.
    pose proof (on_line_shape l) as Hl.
    destruct (on_line l) as [evs [e | [ | ]]].
    + discriminate.
    + destruct (iter_lines pre None) as [evs' r'] eqn:Hrest.
      inversion Hpre as [[Hevs Hr]]. subst r'.
      unfold chunks in Hevs. symmetry in Hevs.
      apply map_eq_app in Hevs.
      destruct Hevs as (t1 & t2 & -> & Ht1 & Ht2).
      rewrite (IH t2); [ | rewrite <- Ht2; reflexivity ].
      destruct (iter_lines rest fault) as [evs'' r''].
      unfold chunks. rewrite Ht2, app_assoc. reflexivity.
    + destruct Hl as (mid & -> & _). inversion Hpre as [[Hevs]].
      exfalso. apply (chunks_no_done texts). rewrite <- Hevs.
      apply in_or_app. right. left. reflexivity.
Qed.

(** C3, as amended: when a line of the body fails to deserialize after lines
    that yielded text chunks, with other lines still to follow, the generator
    yields an [Error] event for that line and reads on, so the events of the
    lines after it follow; [event_stream] forwards the chunks before it, sends
    that [Error] to the client as an [error] frame and ends the stream there,
    with nothing stored, whatever else was or would be received. *)
Theorem malformed_line_ends_stream (ollama : string -> connection) (now : Z)
    (save_fault : option exn) (artifact : Artifact)
    (pre post : list line) (detail : string) (fault : option exn)
    (texts : list string) :
  ollama (_create_prompt (name artifact) (Models.time_period artifact)
            (estimated_year artifact) (origin_location artifact))
  = Responds 200 (pre ++ Undecodable detail :: post)%list fault ->
  iter_lines pre None = (chunks texts, inr tt) ->
  generate_artifact_description ollama (name artifact)
    (Models.time_period artifact) (estimated_year artifact)
    (origin_location artifact)
  = (chunks texts
     ++ Error ("JSON decode error: " ++ detail)
        :: handlers (iter_lines post fault))%list
  /\ event_stream ollama now save_fault artifact
     = ((map chunk texts ++ [error ("JSON decode error: " ++ detail)])%list,
        artifact).
Proof.
  intros Hresp Hpre.
  assert (Hgen :
    generate_artifact_description ollama (name artifact)
      (Models.time_period artifact) (estimated_year artifact)
      (origin_location artifact)
    = (chunks texts
       ++ Error ("JSON decode error: " ++ detail)
          :: handlers (iter_lines post fault))%list).
  { unfold generate_artifact_description. rewrite Hresp.
    cbn [with_response Z.eqb Pos.eqb negb].
    rewrite (iter_lines_reads_on pre texts Hpre).
    rewrite iter_lines_cons. cbn [on_line yield ret bind app].
    destruct (iter_lines post fault) as [evs r] eqn:Hpost.
    rewrite (handlers_app (chunks texts)
               (Error ("JSON decode error: " ++ detail) :: evs, r)).
    f_equal.
    apply (handlers_app [Error ("JSON decode error: " ++ detail)] (evs, r)). }
  split; [ exact Hgen | ].
  unfold event_stream. rewrite Hgen, for_chunks_chunks. reflexivity.
Qed.

Lemma malformed_line_ends_stream_witness :
  event_stream (fun _ => Responds 200 body_decode_error_second None)
    1762000000000000 None bronze_mirror
  = ([chunk "고려";
      error "JSON decode error: Expecting value: line 1 column 1 (char 0)"],
     bronze_mirror).
Proof.
  apply (proj2 (malformed_line_ends_stream
                  (fun _ => Responds 200 body_decode_error_second None)
                  1762000000000000 None bronze_mirror
                  [Decoded (JDict [("response", JStr "고려"); ("done", JBool false)])]
                  [Decoded (JDict [("response", JStr "시대의"); ("done", JBool true)])]
                  "Expecting value: line 1 column 1 (char 0)" None ["고려"]
                  eq_refl eq_refl)).
Defined.

(** C3, as stated, fails: the line that does not decode is not the only
    content received, and yet an [error] frame reaches the client. *)
Lemma malformed_line_reaches_client :
  existsb is_error
    (fst (event_stream (fun _ => Responds 200 body_decode_error_second None)
            1762000000000000 None bronze_mirror)) = true
  /\ In (Decoded (JDict [("response", JStr "고려"); ("done", JBool false)]))
       body_decode_error_second.
Proof.
  split; [ reflexivity | left; reflexivity ].
Qed.

(** ** The staleness policy of models.py *)

Lemma absent_truthy (x : option string) : absent x <-> truthy_opt x = false.
Proof.
  unfold absent. destruct x as [ [ | c s ] | ]; cbn; split; intros H; auto;
    try discriminate; destruct H; discriminate.
Qed.

(** C7: [needs_ai_description] is true when [ai_description] is absent (null
    or empty); otherwise it is true exactly when the time since
    [ai_description_generated_at] is more than 30 days, and false when there
    is no such time. *)
Theorem needs_ai_description_policy (now : Z) (self : Artifact) :
  (absent (ai_description self) -> needs_ai_description now self = true)
  /\ (~ absent (ai_description self) ->
      match ai_description_generated_at self with
      | Some generated_at =>
          needs_ai_description now self = true
          <-> (now - generated_at > 30 * 86400 * 1000000)%Z
      | None => needs_ai_description now self = false
      end).
Proof.
  unfold needs_ai_description. split.
  - intros H. apply absent_truthy in H. rewrite H. reflexivity.
  - intros H. rewrite absent_truthy in H.
    destruct (truthy_opt (ai_description self)); [ | congruence ].
    cbn [negb]. destruct (ai_description_generated_at self) as [ t | ].
    + unfold timedelta. cbv zeta. rewrite Z.gtb_ltb, Z.ltb_lt. lia.
    + reflexivity.
Qed.

Lemma needs_ai_description_policy_witness :
  needs_ai_description 1762000000000000 bronze_mirror = true
  /\ (needs_ai_description (1762000000000000 + 2592000000001) described_mirror
      = true
      <-> (1762000000000000 + 2592000000001 - 1762000000000000
           > 30 * 86400 * 1000000)%Z).
Proof.
  split.
  - apply (proj1 (needs_ai_description_policy 1762000000000000 bronze_mirror)).
    left. reflexivity.
  - apply (proj2 (needs_ai_description_policy
                    (1762000000000000 + 2592000000001) described_mirror)).
    intros [H | H]; discriminate H.
Defined.

(** The policy at the edge: a description is fresh at 30 days to the
    microsecond and stale one microsecond later. *)
Example thirty_days_to_the_microsecond :
  needs_ai_description (1762000000000000 + 2592000000000) described_mirror = false
  /\ needs_ai_description (1762000000000000 + 2592000000001) described_mirror
     = true.
Proof. split; reflexivity. Qed.

(** ** The prompt builder of services.py *)

Lemma occurs_middle (a b c : string) : occurs b (a ++ b ++ c).
Proof. exists a, c. reflexivity. Qed.

Lemma splitlines_not_nil (s : string) : splitlines s <> [].
Proof.
  destruct s as [ | c s ]; cbn [splitlines]; [ discriminate | ].
  destruct (is_newline c); [ discriminate | ].
  destruct (splitlines s); discriminate.
Qed.

Lemma glue_cons (l : string) (la lb : list string) :
  la <> [] -> glue (l :: la) lb = l :: glue la lb.
Proof.
  destruct la as [ | l' la ]; [ congruence | reflexivity ].
Qed.

(** Splitting a text put together from two. *)
Lemma splitlines_app (a b : string) :
  splitlines (a ++ b) = glue (splitlines a) (splitlines b).
Proof.
  induction a as [ | c a IH ].
  - cbn. destruct (splitlines b) eqn:Hb; [ | reflexivity ].
    exfalso. exact (splitlines_not_nil b Hb).
  - cbn [String.append splitlines]. rewrite IH.
    pose proof (splitlines_not_nil a) as Ha.
    destruct (is_newline c).
    + rewrite glue_cons by exact Ha. reflexivity.
    + destruct (splitlines a) as [ | l1 [ | l2 ls ] ]; [ congruence | | ].
      * cbn [glue]. destruct (splitlines b); reflexivity.
      * reflexivity.
Qed.

Lemma splitlines_single_line (s : string) :
  single_line s = true -> splitlines s = [s].
Proof.
  induction s as [ | c s IH ]; [ reflexivity | ].
  cbn [single_line splitlines]. intros H.
  apply andb_true_iff in H. destruct H as [Hc Hs].
  apply negb_true_iff in Hc. rewrite Hc, (IH Hs). reflexivity.
Qed.

Lemma single_line_app (a b : string) :
  single_line a = true -> single_line b = true -> single_line (a ++ b) = true.
Proof.
  intros Ha Hb. induction a as [ | c a IH ]; [ exact Hb | ].
  cbn [String.append single_line] in Ha |- *.
  apply andb_true_iff in Ha. destruct Ha as [Hc Ha].
  rewrite Hc, (IH Ha). reflexivity.
Qed.

(** The lines of what [_create_prompt] appends for one optional field: the
    line break closes the line before, the bullet and the value make one
    line. *)
Lemma splitlines_field (bullet : string) (x : option string) :
  single_line bullet = true -> single_line (text x) = true ->
  splitlines (if truthy_opt x then NL ++ bullet ++ text x else "")
  = "" :: line_if_present bullet x.
Proof.
  intros Hb Hx. unfold line_if_present.
  destruct (truthy_opt x); [ | reflexivity ].
  cbn [NL String.append splitlines]. unfold is_newline.
  rewrite Ascii.eqb_refl.
  rewrite splitlines_single_line by (apply single_line_app; assumption).
  reflexivity.
Qed.

(** The prompt as one concatenation. *)
Lemma prompt_decomposition (artifact_name : string)
    (time_period estimated_year origin_location : option string) :
  _create_prompt artifact_name time_period estimated_year origin_location
  = PROMPT_HEAD ++ artifact_name
    ++ (if truthy_opt time_period
        then NL ++ TIME_PERIOD_BULLET ++ text time_period else "")
    ++ (if truthy_opt estimated_year
        then NL ++ ESTIMATED_YEAR_BULLET ++ text estimated_year else "")
    ++ (if truthy_opt origin_location
        then NL ++ ORIGIN_LOCATION_BULLET ++ text origin_location else "")
    ++ PROMPT_GUIDE.
Proof.
  unfold _create_prompt, TIME_PERIOD_LABEL, ESTIMATED_YEAR_LABEL,
    ORIGIN_LOCATION_LABEL.
  destruct (truthy_opt time_period), (truthy_opt estimated_year),
    (truthy_opt origin_location);
    rewrite ?append_assoc; reflexivity.
Qed.

Lemma glue_single (l : string) (lb : list string) :
  glue [l] ("" :: lb) = l :: lb.
Proof. cbn. rewrite append_empty_r. reflexivity. Qed.

Lemma glue_field (fields rest : list string) :
  glue ("" :: fields) ("" :: rest) = "" :: (fields ++ rest)%list.
Proof.
  assert (H : forall l ls, glue (l :: ls) ("" :: rest) = l :: (ls ++ rest)%list).
  { intros l ls. revert l. induction ls as [ | l' ls IH ]; intros l.
    - apply glue_single.
    - rewrite glue_cons by discriminate. rewrite IH. reflexivity. }
  apply H.
Qed.

Lemma glue_last (la : list string) (l l' : string) (ls : list string) :
  glue (la ++ [l]) (l' :: ls) = (la ++ String.append l l' :: ls)%list.
Proof.
  induction la as [ | x la IH ]; [ reflexivity | ].
  cbn [app]. rewrite glue_cons by (destruct la; discriminate).
  rewrite IH. reflexivity.
Qed.

Lemma splitlines_head : splitlines PROMPT_HEAD = (HEAD_LINES ++ [NAME_BULLET])%list.
Proof. vm_compute. reflexivity. Qed.

Lemma splitlines_guide : splitlines PROMPT_GUIDE = "" :: GUIDE_LINES.
Proof. vm_compute. reflexivity. Qed.

(** The lines of the prompt, for a name and fields with no line break in
    them. *)
Lemma prompt_lines (artifact_name : string)
    (time_period estimated_year origin_location : option string) :
  single_line artifact_name = true ->
  single_line (text time_period) = true ->
  single_line (text estimated_year) = true ->
  single_line (text origin_location) = true ->
  splitlines
    (_create_prompt artifact_name time_period estimated_year origin_location)
  = (HEAD_LINES
     ++ [name_line artifact_name]
     ++ line_if_present TIME_PERIOD_BULLET time_period
     ++ line_if_present ESTIMATED_YEAR_BULLET estimated_year
     ++ line_if_present ORIGIN_LOCATION_BULLET origin_location
     ++ GUIDE_LINES)%list.
Proof.
  intros Hname Htp Hey Hol.
  rewrite prompt_decomposition.
  do 5 rewrite splitlines_app.
  rewrite (splitlines_single_line _ Hname).
  rewrite (splitlines_field TIME_PERIOD_BULLET time_period eq_refl Htp).
  rewrite (splitlines_field ESTIMATED_YEAR_BULLET estimated_year eq_refl Hey).
  rewrite (splitlines_field ORIGIN_LOCATION_BULLET origin_location eq_refl Hol).
  rewrite splitlines_head, splitlines_guide.
  do 3 rewrite glue_field.
  rewrite glue_single, glue_last.
  reflexivity.
Qed.

(** The optional lines: one for each present field, in the fixed order. *)
Lemma optional_lines_present (time_period estimated_year origin_location : option string) :
  let lines := optional_lines time_period estimated_year origin_location in
  (In (TIME_PERIOD_LABEL ++ text time_period) lines
   <-> truthy_opt time_period = true)
  /\ (In (ESTIMATED_YEAR_LABEL ++ text estimated_year) lines
      <-> truthy_opt estimated_year = true)
  /\ (In (ORIGIN_LOCATION_LABEL ++ text origin_location) lines
      <-> truthy_opt origin_location = true)
  /\ lines
     = (line_if_present TIME_PERIOD_LABEL time_period
        ++ line_if_present ESTIMATED_YEAR_LABEL estimated_year
        ++ line_if_present ORIGIN_LOCATION_LABEL origin_location)%list.
Proof.
  intros lines. subst lines. unfold optional_lines, line_if_present.
  cbn [filter].
  destruct (truthy_opt time_period), (truthy_opt estimated_year),
    (truthy_opt origin_location); cbn [map In app];
    repeat split; intros; try reflexivity; try discriminate; auto;
    repeat match goal with
           | H : _ \/ _ |- _ => destruct H
           | H : False |- _ => destruct H
           | H : _ ++ _ = _ ++ _ |- _ => discriminate H
           end.
Qed.

(** C8: for every name and every three optional fields the prompt is one
    string, the fixed opening, the name, the lines of the optional fields and
    the fixed guidance: the name is always in it, the line of a field is among
    the optional lines exactly when the field is present (neither null nor
    empty), and the lines come in the order time_period, estimated_year,
    origin_location.  When the name and the fields have no line break in
    them, the lines of the prompt are those of the opening, the line of the
    name, one line for each present field in that order, and those of the
    guidance. *)
Theorem prompt_has_name_and_present_fields (artifact_name : string)
    (time_period estimated_year origin_location : option string) :
  let lines := optional_lines time_period estimated_year origin_location in
  _create_prompt artifact_name time_period estimated_year origin_location
  = PROMPT_HEAD ++ artifact_name ++ join lines ++ PROMPT_GUIDE
  /\ occurs artifact_name
       (_create_prompt artifact_name time_period estimated_year origin_location)
  /\ (In (TIME_PERIOD_LABEL ++ text time_period) lines
      <-> truthy_opt time_period = true)
  /\ (In (ESTIMATED_YEAR_LABEL ++ text estimated_year) lines
      <-> truthy_opt estimated_year = true)
  /\ (In (ORIGIN_LOCATION_LABEL ++ text origin_location) lines
      <-> truthy_opt origin_location = true)
  /\ lines
     = (line_if_present TIME_PERIOD_LABEL time_period
        ++ line_if_present ESTIMATED_YEAR_LABEL estimated_year
        ++ line_if_present ORIGIN_LOCATION_LABEL origin_location)%list
  /\ (single_line artifact_name = true ->
      single_line (text time_period) = true ->
      single_line (text estimated_year) = true ->
      single_line (text origin_location) = true ->
      splitlines
        (_create_prompt artifact_name time_period estimated_year origin_location)
      = (HEAD_LINES
         ++ [name_line artifact_name]
         ++ line_if_present TIME_PERIOD_BULLET time_period
         ++ line_if_present ESTIMATED_YEAR_BULLET estimated_year
         ++ line_if_present ORIGIN_LOCATION_BULLET origin_location
         ++ GUIDE_LINES)%list).
Proof.
  intros lines.
  assert (Heq :
    _create_prompt artifact_name time_period estimated_year origin_location
    = PROMPT_HEAD ++ artifact_name ++ join lines ++ PROMPT_GUIDE).
  { subst lines. rewrite prompt_decomposition.
    unfold optional_lines, TIME_PERIOD_LABEL, ESTIMATED_YEAR_LABEL,
      ORIGIN_LOCATION_LABEL. cbn [filter].
    destruct (truthy_opt time_period), (truthy_opt estimated_year),
      (truthy_opt origin_location); cbn [map join fold_right];
      rewrite ?append_assoc, ?append_empty_r; reflexivity. }
  split; [ exact Heq | ].
  split; [ rewrite Heq; apply occurs_middle | ].
  destruct (optional_lines_present time_period estimated_year origin_location)
    as (Htp & Hey & Hol & Horder).
  repeat (split; [ assumption | ]).
  apply prompt_lines.
Qed.

Lemma prompt_has_name_and_present_fields_witness :
  optional_lines (Models.time_period bronze_mirror)
    (estimated_year bronze_mirror) (origin_location bronze_mirror)
  = [TIME_PERIOD_LABEL ++ "고려"; ORIGIN_LOCATION_LABEL ++ "개성"]
  /\ occurs "청동거울"
       (_create_prompt "청동거울" (Some "고려") None (Some "개성"))
  /\ splitlines (_create_prompt "청동거울" (Some "고려") None (Some "개성"))
     = (HEAD_LINES
        ++ ["- 유물명: 청동거울"; "• 시대: 고려"; "• 출토지: 개성"]
        ++ GUIDE_LINES)%list.
Proof.
  pose proof (prompt_has_name_and_present_fields "청동거울" (Some "고려") None
                (Some "개성")) as H.
  cbv zeta in H. destruct H as (_ & Hname & _ & _ & _ & Hlines & Hsplit).
  split; [ exact Hlines | ].
  split; [ exact Hname | ].
  apply Hsplit; reflexivity.
Defined.

(** The scenario of §8: the prompt for the bronze mirror has the name, the
    time-period line and the origin line, and no estimated-year line. *)
Example prompt_of_bronze_mirror :
  let prompt := _create_prompt "청동거울" (Some "고려") None (Some "개성") in
  is_substring "- 유물명: 청동거울" prompt = true
  /\ is_substring (TIME_PERIOD_LABEL ++ "고려") prompt = true
  /\ is_substring (ORIGIN_LOCATION_LABEL ++ "개성") prompt = true
  /\ is_substring "추정 연도" prompt = false.
Proof. vm_compute. auto. Qed.

(** The scenario of §8: two chunks and the closing record. *)
Example stream_of_two_chunks :
  event_stream two_chunks_then_done 1762000000000000 None bronze_mirror
  = ([chunk "고려"; chunk "시대의"; complete "고려시대의"],
     persisted bronze_mirror "고려시대의" 1762000000000000).
Proof. reflexivity. Qed.

(** The scenario of §8: HTTP 500. *)
Example stream_of_bad_status :
  event_stream internal_server_error 1762000500000000 None described_mirror
  = ([error "Ollama API error: 500"], described_mirror).
Proof. reflexivity. Qed.

(** The scenario of §8: Reset, then Get. *)
Example get_after_reset :
  let row := regenerate_artifact_description None described_mirror in
  Response.is_ai_generated (get_artifact_description 1762000500000000 row) = false
  /\ Response.description (get_artifact_description 1762000500000000 row)
     = "고려 시대의 거울"
  /\ Response.generated_at (get_artifact_description 1762000500000000 row) = None.
Proof. cbn. auto. Qed.

(** The model service cannot be reached: one [error] frame, nothing stored. *)
Example stream_when_unreachable :
  event_stream (fun _ => Fails (ConnectError "All connection attempts failed"))
    1762000500000000 None described_mirror
  = ([error "Cannot connect to Ollama. Is it running?"], described_mirror).
Proof. reflexivity. Qed.

(** The read times out after a first chunk: the chunk is forwarded, then one
    [error] frame; the text is dropped. *)
Example stream_when_read_times_out :
  event_stream
    (fun _ => Responds 200 (text_records ["고려"])
                (Some (TimeoutException "timed out")))
    1762000500000000 None described_mirror
  = ([chunk "고려"; error "Ollama API timeout"], described_mirror).
Proof. reflexivity. Qed.

(** The write fails after [Done]: no [complete] frame, one [error] frame with
    the text of the fault, and the row as it was. *)
Example stream_when_write_fails :
  event_stream two_chunks_then_done 1762000500000000
    (Some (OtherException "database is locked")) described_mirror
  = ([chunk "고려"; chunk "시대의"; error "database is locked"], described_mirror).
Proof. reflexivity. Qed.

(** A record whose ['response'] is not text: the addition to the gathered
    text raises and the handler of [event_stream] reports it. *)
Example stream_when_response_is_a_number :
  fst (event_stream
         (fun _ => Responds 200 [Decoded (JDict [("response", JInt 7)])] None)
         1762000500000000 None bronze_mirror)
  = [error ("can only concatenate str (not " ++ DQUOTE ++ "int" ++ DQUOTE
            ++ ") to str")].
Proof. reflexivity. Qed.

(** ** The synchronous entry point of services.py *)

Lemma for_chunk_chunks (texts : list string) (rest : list event)
    (full_text : string) :
  for_chunk (chunks texts ++ rest)%list full_text
  = for_chunk rest (full_text ++ join texts).
Proof.
  revert full_text.
  induction texts as [ | s texts IH ]; intros acc; cbn [chunks map app for_chunk].
  - cbn [join fold_right]. rewrite append_empty_r. reflexivity.
  - fold (chunks texts). rewrite IH.
    cbn [join fold_right]. fold (join texts). rewrite append_assoc. reflexivity.
Qed.

(** The text chunks at the head of a sequence of events, and what stops
    them. *)
Lemma leading_chunks (events : list event) :
  exists texts remaining,
    events = (chunks texts ++ remaining)%list
    /\ match remaining with
       | Chunk (JStr _) :: _ => False
       | _ => True
       end.
Proof.
  induction events as [ | e events IH ].
  - exists [], []. split; [ reflexivity | exact I ].
  - destruct IH as (texts & remaining & -> & Hrem).
    destruct e as [ v | | msg ].
    + destruct v as [ | b | z | nonzero | s | l | d ];
        try (match goal with
             | |- context [Chunk ?v :: _] =>
                 exists [], (Chunk v :: chunks texts ++ remaining)%list;
                 split; [ reflexivity | exact I ]
             end).
      exists (s :: texts), remaining. split; [ reflexivity | exact Hrem ].
    + exists [], (Done :: chunks texts ++ remaining)%list.
      split; [ reflexivity | exact I ].
    + exists [], (Error msg :: chunks texts ++ remaining)%list.
      split; [ reflexivity | exact I ].
Qed.

(** X1: [generate_simple] returns exactly when the events of the generator are
    text chunks, closed by [Done] or not, and then it returns their
    concatenation: a body that ends before its closing record counts as
    complete here. *)
Theorem generate_simple_returns_iff (ollama : string -> connection)
    (artifact_name full_text : string) :
  generate_simple ollama artifact_name = inr full_text
  <-> exists texts,
        full_text = join texts
        /\ (generate_artifact_description ollama artifact_name None None None
            = chunks texts
            \/ generate_artifact_description ollama artifact_name None None None
               = (chunks texts ++ [Done])%list).
Proof.
  unfold generate_simple. split.
  - destruct (leading_chunks
                (generate_artifact_description ollama artifact_name None None None))
      as (texts & remaining & Hgen & Hrem).
    rewrite Hgen, for_chunk_chunks. cbn [String.append].
    destruct remaining as [ | [ v | | msg ] rest ]; cbn [for_chunk].
    + intros H. inversion H. exists texts. rewrite app_nil_r. auto.
    + destruct v; try discriminate. contradiction.
    + intros H. inversion H. exists texts. split; [ reflexivity | right ].
      destruct rest as [ | e rest ]; [ reflexivity | exfalso ].
      apply (followed_event_running _ _ _ _ _ _ _ _ Hgen). discriminate.
    + discriminate.
  - intros (texts & -> & [Hgen | Hgen]); rewrite Hgen.
    + rewrite <- (app_nil_r (chunks texts)), for_chunk_chunks. reflexivity.
    + rewrite for_chunk_chunks. reflexivity.
Qed.

Lemma generate_simple_returns_iff_witness :
  generate_simple two_chunks_then_done "청동거울" = inr "고려시대의".
Proof.
  apply (proj2 (generate_simple_returns_iff two_chunks_then_done "청동거울"
                  "고려시대의")).
  exists ["고려"; "시대의"]. split; [ reflexivity | right; reflexivity ].
Defined.

(** X2: when an [Error] event comes after text chunks, [generate_simple] raises
    an exception with the message of that event and returns none of the text
    gathered so far. *)
Theorem generate_simple_raises_first_error (ollama : string -> connection)
    (artifact_name : string) (texts : list string) (msg : string)
    (rest : list event) :
  generate_artifact_description ollama artifact_name None None None
  = (chunks texts ++ Error msg :: rest)%list ->
  generate_simple ollama artifact_name = inl (OtherException msg).
Proof.
  intros Hgen. unfold generate_simple.
  rewrite Hgen, for_chunk_chunks. reflexivity.
Qed.

Lemma generate_simple_raises_first_error_witness :
  generate_simple (fun _ => Responds 200 body_decode_error_second None) "청동거울"
  = inl (OtherException
           "JSON decode error: Expecting value: line 1 column 1 (char 0)").
Proof.
  apply (generate_simple_raises_first_error
           (fun _ => Responds 200 body_decode_error_second None) "청동거울"
           ["고려"] "JSON decode error: Expecting value: line 1 column 1 (char 0)"
           [Chunk (JStr "시대의"); Done]).
  reflexivity.
Defined.




(** ** More on the generator of services.py *)

(** X4: blank lines of the body change nothing: the events are those of the body
    without them. *)
Theorem blank_lines_are_skipped (status_code : Z) (body : list line)
    (fault : option exn) (artifact_name : string)
    (time_period estimated_year origin_location : option string) :
  generate_artifact_description
    (fun _ => Responds status_code (filter (fun l => negb (is_blank l)) body) fault)
    artifact_name time_period estimated_year origin_location
  = generate_artifact_description
      (fun _ => Responds status_code body fault)
      artifact_name time_period estimated_year origin_location.
Proof.
  unfold generate_artifact_description. cbn [with_response].
  destruct (negb (status_code =? 200)%Z); [ reflexivity | ].
  f_equal.
  induction body as [ | l body IH ]; [ reflexivity | ].
  destruct l as [ | msg | data ]; cbn [filter is_blank negb].
  - rewrite IH, (iter_lines_cons Blank). cbn.
    destruct (iter_lines body fault). reflexivity.
  - rewrite !iter_lines_cons, IH. reflexivity.
  - rewrite !iter_lines_cons, IH. reflexivity.
Qed.

(** X5: once a record with a true ['done'] flag is read, the rest of the body is
    never read: neither its lines nor a fault that ends it show in the
    events. *)
Theorem body_after_done_is_ignored (pre post : list line)
    (d : list (string * json)) (fault : option exn) (artifact_name : string)
    (time_period estimated_year origin_location : option string) :
  (exists flag, lookup "done" d = Some flag /\ truthy flag = true) ->
  generate_artifact_description
    (fun _ => Responds 200 (pre ++ Decoded (JDict d) :: post) fault)
    artifact_name time_period estimated_year origin_location
  = generate_artifact_description
      (fun _ => Responds 200 (pre ++ [Decoded (JDict d)]) None)
      artifact_name time_period estimated_year origin_location.
Proof.
  intros (flag & Hflag & Htrue).
  unfold generate_artifact_description.
  cbn [with_response Z.eqb Pos.eqb negb]. f_equal.
  induction pre as [ | l pre IH ].
  - cbn [app]. rewrite !iter_lines_cons. cbn [on_line].
    rewrite on_record_dict, Hflag, Htrue. reflexivity.
  - rewrite <- !app_comm_cons, !iter_lines_cons, IH. reflexivity.
Qed.

Lemma body_after_done_is_ignored_witness :
  generate_artifact_description
    (fun _ => Responds 200
                (text_records ["고려"] ++ Decoded (JDict closing_record)
                 :: [Undecodable "Extra data"])
                (Some (TimeoutException "timed out")))
    "청동거울" None None None
  = generate_artifact_description
      (fun _ => Responds 200
                  (text_records ["고려"] ++ [Decoded (JDict closing_record)]) None)
      "청동거울" None None None.
Proof.
  apply (body_after_done_is_ignored (text_records ["고려"])
           [Undecodable "Extra data"] closing_record
           (Some (TimeoutException "timed out")) "청동거울" None None None).
  exists (JBool true). split; reflexivity.
Defined.

(** ** More on the aggregator of views.py *)


Lemma closing_among_chunks (texts : list string) (tail pre post : list frame)
    (f : frame) :
  (map chunk texts ++ tail)%list = (pre ++ f :: post)%list ->
  closing f = true ->
  (List.length tail <= 1)%nat ->
  post = [] /\ Forall (fun g => closing g = false) pre.
Proof.
  revert pre. induction texts as [ | s texts IH ]; intros pre Heq Hf Htail.
  - cbn in Heq. subst tail. rewrite length_app in Htail. cbn in Htail.
    destruct pre as [ | g pre ]; [ | cbn in Htail; lia ].
    destruct post; [ auto | cbn in Htail; lia ].
  - destruct pre as [ | g pre ]; cbn in Heq; inversion Heq; subst.
    + discriminate Hf.
    + destruct (IH pre H1 Hf Htail) as [Hpost Hpre].
      split; [ exact Hpost | constructor; [ reflexivity | exact Hpre ] ].
Qed.

(** X6: a stream sends at most one closing frame, and sends nothing after it:
    whatever comes before an [error] or [complete] frame is a [chunk] frame,
    and nothing comes after. *)
Theorem closing_frame_is_last (ollama : string -> connection) (now : Z)
    (save_fault : option exn) (artifact : Artifact)
    (pre post : list frame) (f : frame) :
  fst (event_stream ollama now save_fault artifact) = (pre ++ f :: post)%list ->
  closing f = true ->
  post = [] /\ Forall (fun g => closing g = false) pre.
Proof.
  intros Heq Hf.
  destruct (event_stream_shape ollama now save_fault artifact)
    as (texts & remaining & _
        & [[_ Hrun] | [(msg & _ & Hrun) | (_ & _ & Hrun)]]);
    rewrite Hrun in Heq; cbn [fst] in Heq.
  - rewrite <- (app_nil_r (map chunk texts)) in Heq.
    apply (closing_among_chunks _ _ _ _ _ Heq Hf). cbn. lia.
  - apply (closing_among_chunks _ _ _ _ _ Heq Hf). cbn. lia.
  - apply (closing_among_chunks _ _ _ _ _ Heq Hf). cbn. lia.
Qed.

Lemma closing_frame_is_last_witness :
  @nil frame = []
  /\ Forall (fun g => closing g = false) [chunk "고려"; chunk "시대의"].
Proof.
  apply (closing_frame_is_last two_chunks_then_done 1762000000000000 None
           bronze_mirror [chunk "고려"; chunk "시대의"] []
           (complete "고려시대의")); reflexivity.
Defined.


(** X8: when the write after [Done] fails, the client gets the chunks and then an
    [error] frame with the text of the fault, no [complete] frame, and the
    stored row stays as it was. *)
Theorem failed_write_ends_in_error (ollama : string -> connection) (now : Z)
    (e : exn) (artifact : Artifact) (texts : list string) (rest : list event) :
  generate_artifact_description ollama (name artifact)
    (Models.time_period artifact) (estimated_year artifact)
    (origin_location artifact) = (chunks texts ++ Done :: rest)%list ->
  event_stream ollama now (Some e) artifact
  = ((map chunk texts ++ [error (str e)])%list, artifact).
Proof.
  intros Hgen. unfold event_stream.
  rewrite Hgen, for_chunks_chunks. cbn. rewrite app_nil_r. reflexivity.
Qed.

Lemma failed_write_ends_in_error_witness :
  event_stream two_chunks_then_done 1762000500000000
    (Some (OtherException "database is locked")) described_mirror
  = ([chunk "고려"; chunk "시대의"; error "database is locked"], described_mirror).
Proof.
  apply (failed_write_ends_in_error two_chunks_then_done 1762000500000000
           (OtherException "database is locked") described_mirror
           ["고려"; "시대의"] []).
  reflexivity.
Defined.

(** Setting the two cached fields of the row left by an operation gives the
    same row as setting them on the row before it. *)
Lemma update_after_run (op : operation) (row : Artifact)
    (d : option string) (t : option Z) :
  update_fields (run op row) d t = update_fields row d t.
Proof.
  pose proof (run_cases op row) as Hrun.
  destruct op as [ollama now save_fault | [ e | ] | now].
  - destruct Hrun as [-> | (_ & full_text & ->)]; reflexivity.
  - rewrite Hrun. reflexivity.
  - rewrite Hrun. reflexivity.
  - rewrite Hrun. reflexivity.
Qed.

(** X9: no operation of the core touches a field other than the two cached ones:
    the name, the plain description, the context fields, the status, the
    image count and the recorded model version are those of the row before.
    In particular a generation does not update [ai_model_version]. *)
Theorem operations_keep_other_fields (op : operation) (row : Artifact) :
  name (run op row) = name row
  /\ description (run op row) = description row
  /\ Models.time_period (run op row) = Models.time_period row
  /\ estimated_year (run op row) = estimated_year row
  /\ origin_location (run op row) = origin_location row
  /\ status (run op row) = status row
  /\ image_count (run op row) = image_count row
  /\ ai_model_version (run op row) = ai_model_version row.
Proof.
  pose proof (run_cases op row) as Hrun.
  destruct op as [ollama now save_fault | [ e | ] | now].
  - destruct Hrun as [-> | (_ & full_text & ->)]; repeat split; reflexivity.
  - rewrite Hrun. repeat split; reflexivity.
  - rewrite Hrun. repeat split; reflexivity.
  - rewrite Hrun. repeat split; reflexivity.
Qed.

(** X10: the last completed generation wins: when a stream on the row left by any
    earlier operation completes, the stored row is the first row with the new
    text and time, whatever the earlier operation stored. *)
Theorem last_generation_wins (earlier : operation) (ollama : string -> connection)
    (now : Z) (save_fault : option exn) (row : Artifact)
    (prior : list frame) (full_text : string) :
  fst (event_stream ollama now save_fault (run earlier row))
  = (prior ++ [complete full_text])%list ->
  snd (event_stream ollama now save_fault (run earlier row))
  = persisted row full_text now.
Proof.
  intros Hlast.
  destruct (event_stream_shape ollama now save_fault (run earlier row))
    as (texts & remaining & _
        & [[_ Hrun] | [(msg & _ & Hrun) | (_ & _ & Hrun)]]);
    rewrite Hrun in Hlast |- *; cbn [fst snd] in Hlast |- *.
  - apply last_of_chunks in Hlast. discriminate.
  - apply app_inj_tail in Hlast. destruct Hlast as [_ Hlast]. discriminate.
  - apply app_inj_tail in Hlast. destruct Hlast as [_ Hlast].
    inversion Hlast; subst. unfold persisted. apply update_after_run.
Qed.

Lemma last_generation_wins_witness :
  snd (event_stream two_chunks_then_done 1762000500000000 None
         (run (Generate done_at_once 1762000000000000 None) bronze_mirror))
  = persisted bronze_mirror "고려시대의" 1762000500000000.
Proof.
  apply (last_generation_wins (Generate done_at_once 1762000000000000 None)
           two_chunks_then_done 1762000500000000 None bronze_mirror
           [chunk "고려"; chunk "시대의"] "고려시대의").
  reflexivity.
Defined.

(** ** The description state of views.py and models.py *)

(** X11: a description that is due for regeneration stays due: the staleness
    policy never turns from true to false as time passes. *)
Theorem staleness_is_monotone (now later : Z) (self : Artifact) :
  (now <= later)%Z ->
  needs_ai_description now self = true ->
  needs_ai_description later self = true.
Proof.
  unfold needs_ai_description. intros Hle.
  destruct (negb (truthy_opt (ai_description self))); [ auto | ].
  destruct (ai_description_generated_at self) as [ t | ]; [ | auto ].
  cbv zeta. rewrite !Z.gtb_ltb, !Z.ltb_lt. lia.
Qed.

Lemma staleness_is_monotone_witness :
  needs_ai_description (1762000000000000 + 2592000000002) described_mirror = true.
Proof.
  apply (staleness_is_monotone (1762000000000000 + 2592000000001)
           (1762000000000000 + 2592000000002) described_mirror).
  - lia.
  - reflexivity.
Defined.

(** X12: the description that [get_artifact_description] answers with is never
    empty: it is the cached text, the plain description or the placeholder,
    the first of them that is not empty. *)
Theorem get_description_never_empty (now : Z) (artifact : Artifact) :
  Response.description (get_artifact_description now artifact) <> ""
  /\ (Response.is_ai_generated (get_artifact_description now artifact) = true
      -> ai_description artifact
         = Some (Response.description (get_artifact_description now artifact)))
  /\ (Response.is_ai_generated (get_artifact_description now artifact) = false
      -> Response.description (get_artifact_description now artifact)
         = or_else (description artifact) NO_DESCRIPTION).
Proof.
  unfold get_artifact_description.
  destruct (ai_description artifact) as [ [ | c s ] | ]; cbn;
    repeat split; try discriminate; try reflexivity;
    unfold or_else; destruct (description artifact) as [ [ | c' s' ] | ];
    cbn; discriminate.
Qed.

Lemma get_description_never_empty_witness :
  ai_description described_mirror
  = Some (Response.description
            (get_artifact_description 1762000500000000 described_mirror)).
Proof.
  apply (proj1 (proj2 (get_description_never_empty 1762000500000000
                         described_mirror))).
  reflexivity.
Defined.

(** X13: in the answer of [get_artifact_description], a description that is not
    the AI one always comes with [needs_regeneration] true; so when
    [needs_regeneration] is false the client is looking at a cached AI text,
    and the time of its generation, when the answer has one, is at most 30
    days back. *)
Theorem not_ai_generated_needs_regeneration (now : Z) (artifact : Artifact) :
  (Response.is_ai_generated (get_artifact_description now artifact) = false
   -> Response.needs_regeneration (get_artifact_description now artifact) = true)
  /\ (Response.needs_regeneration (get_artifact_description now artifact) = false
      -> Response.is_ai_generated (get_artifact_description now artifact) = true
         /\ forall generated_at,
              Response.generated_at (get_artifact_description now artifact)
              = Some generated_at
              -> (now - generated_at <= 30 * 86400 * 1000000)%Z).
Proof.
  unfold get_artifact_description, needs_ai_description.
  destruct (ai_description artifact) as [ [ | c s ] | ]; cbn;
    split; intros H; try discriminate; try reflexivity.
  split; [ reflexivity | ].
  intros t Ht. rewrite Ht in H.
  unfold timedelta in H. rewrite Z.gtb_ltb, Z.ltb_ge in H. lia.
Qed.

Lemma not_ai_generated_needs_regeneration_witness :
  Response.needs_regeneration
    (get_artifact_description 1762000500000000 bronze_mirror) = true
  /\ Response.is_ai_generated
       (get_artifact_description 1762000500000000 described_mirror) = true.
Proof.
  split.
  - apply (proj1 (not_ai_generated_needs_regeneration 1762000500000000
                    bronze_mirror)).
    reflexivity.
  - apply (proj2 (not_ai_generated_needs_regeneration 1762000500000000
                    described_mirror)).
    reflexivity.
Defined.

(** X14: after a stream that completes with a text that is not empty,
    [get_artifact_description] answers with that text as an AI description
    and the time of the write, and [needs_regeneration] is true exactly from
    more than 30 days after the write; right after the generation it is
    false. *)
Theorem get_after_generation (ollama : string -> connection) (now : Z)
    (save_fault : option exn) (artifact : Artifact)
    (prior : list frame) (full_text : string) (later : Z) :
  fst (event_stream ollama now save_fault artifact)
  = (prior ++ [complete full_text])%list ->
  full_text <> "" ->
  let answer :=
    get_artifact_description later
      (snd (event_stream ollama now save_fault artifact)) in
  Response.is_ai_generated answer = true
  /\ Response.description answer = full_text
  /\ Response.generated_at answer = Some now
  /\ (Response.needs_regeneration answer = true
      <-> (later - now > 30 * 86400 * 1000000)%Z).
Proof.
  intros Hlast Hne answer. subst answer.
  destruct (event_stream_shape ollama now save_fault artifact)
    as (texts & remaining & _
        & [[_ Hrun] | [(msg & _ & Hrun) | (_ & _ & Hrun)]]);
    rewrite Hrun in Hlast |- *; cbn [fst snd] in Hlast |- *.
  - apply last_of_chunks in Hlast. discriminate.
  - apply app_inj_tail in Hlast. destruct Hlast as [_ Hlast]. discriminate.
  - apply app_inj_tail in Hlast. destruct Hlast as [_ Hlast].
    inversion Hlast; subst.
    unfold get_artifact_description, needs_ai_description. cbn.
    destruct (join texts) as [ | c s ]; [ congruence | ]. cbn.
    repeat split; try reflexivity.
    + unfold timedelta. rewrite Z.gtb_ltb, Z.ltb_lt. lia.
    + unfold timedelta. rewrite Z.gtb_ltb, Z.ltb_lt. lia.
Qed.

Lemma get_after_generation_witness :
  Response.description
    (get_artifact_description 1762000000000000
       (snd (event_stream two_chunks_then_done 1762000000000000 None
               bronze_mirror)))
  = "고려시대의"
  /\ (Response.needs_regeneration
        (get_artifact_description 1762000000000000
           (snd (event_stream two_chunks_then_done 1762000000000000 None
                   bronze_mirror))) = true
      <-> (1762000000000000 - 1762000000000000 > 30 * 86400 * 1000000)%Z).
Proof.
  pose proof (get_after_generation two_chunks_then_done 1762000000000000 None
                bronze_mirror [chunk "고려"; chunk "시대의"] "고려시대의"
                1762000000000000 eq_refl) as H.
  cbv zeta in H.
  destruct H as (_ & Hdesc & _ & Hneeds); [ discriminate | ].
  split; [ exact Hdesc | exact Hneeds ].
Defined.

(** X15: a Reset whose write succeeds, after any operation, leaves the row from
    before that operation with both cached fields null: it undoes a
    generation, and a second Reset changes nothing.  On that row
    [get_artifact_description] answers with the plain description or the
    placeholder, not AI generated, no generation time, regeneration
    needed. *)
Theorem reset_erases_generation (earlier : operation) (row : Artifact)
    (later : Z) :
  let row' := regenerate_artifact_description None (run earlier row) in
  row' = cleared row
  /\ regenerate_artifact_description None row' = row'
  /\ Response.is_ai_generated (get_artifact_description later row') = false
  /\ Response.description (get_artifact_description later row')
     = or_else (description row) NO_DESCRIPTION
  /\ Response.generated_at (get_artifact_description later row') = None
  /\ Response.needs_regeneration (get_artifact_description later row') = true.
Proof.
  intros row'.
  assert (Hrow : row' = cleared row).
  { subst row'. unfold regenerate_artifact_description, save, cleared. cbn.
    apply update_after_run. }
  rewrite Hrow. repeat split; reflexivity.
Qed.

(** ** The AI flags of serializers.py *)

(** X16: the two AI flags that [ArtifactSerializer] puts in the list and detail
    answers agree with the answer of [get_artifact_description] for the same
    row at the same time, and an artifact listed without an AI description
    is always listed as needing generation. *)
Theorem serializer_flags_agree_with_get (now : Z) (obj : Artifact) :
  get_has_ai_description obj
  = Response.is_ai_generated (get_artifact_description now obj)
  /\ get_needs_ai_generation now obj
     = Response.needs_regeneration (get_artifact_description now obj)
  /\ (get_has_ai_description obj = false
      -> get_needs_ai_generation now obj = true).
Proof.
  unfold get_has_ai_description, get_needs_ai_generation,
    get_artifact_description, needs_ai_description.
  destruct (ai_description obj) as [ [ | c s ] | ]; cbn;
    repeat split; try reflexivity; discriminate.
Qed.

Lemma serializer_flags_agree_with_get_witness :
  get_needs_ai_generation 1762000500000000 bronze_mirror = true.
Proof.
  apply (proj2 (proj2 (serializer_flags_agree_with_get 1762000500000000
                         bronze_mirror))).
  reflexivity.
Defined.

(** ** The linkage of models.py *)

Lemma first_none (rows : list (Z * Artifact)) :
  first rows = None -> rows = [].
Proof.
  destruct rows as [ | r rest ]; [ reflexivity | ].
  cbn [first]. destruct (first rest) as [ r' | ]; [ | discriminate ].
  destruct (fst r <=? fst r')%Z; discriminate.
Qed.

Lemma first_in (rows : list (Z * Artifact)) (r : Z * Artifact) :
  first rows = Some r -> In r rows.
Proof.
  revert r. induction rows as [ | x rest IH ]; intros r; [ discriminate | ].
  cbn [first]. destruct (first rest) as [ r' | ].
  - destruct (fst x <=? fst r')%Z; intros H; inversion H; subst.
    + left. reflexivity.
    + right. apply IH. reflexivity.
  - intros H. inversion H. left. reflexivity.
Qed.


Lemma has_key_in (k : Z) (rows : list (Z * Artifact)) :
  has_key k rows = true <-> In k (map fst rows).
Proof.
  unfold has_key. rewrite existsb_exists, in_map_iff. split.
  - intros (r & Hr & Hk). apply Z.eqb_eq in Hk. eauto.
  - intros (r & Hk & Hr). exists r. split; [ exact Hr | ]. apply Z.eqb_eq. exact Hk.
Qed.

Lemma has_link_in (k fid : Z) (links : list (Z * Z)) :
  has_link k fid links = true <-> In (k, fid) links.
Proof.
  unfold has_link. rewrite existsb_exists. split.
  - intros ([a b] & Hl & H). apply andb_true_iff in H. cbn in H.
    destruct H as [Ha Hb]. apply Z.eqb_eq in Ha, Hb. subst. exact Hl.
  - intros H. exists (k, fid). split; [ exact H | ].
    cbn. rewrite !Z.eqb_refl. reflexivity.
Qed.

Lemma existing_feeds_in (k fid : Z) (links : list (Z * Z)) :
  existsb (Z.eqb fid) (map snd (filter (fun l => (fst l =? k)%Z) links)) = true
  <-> In (k, fid) links.
Proof.
  rewrite existsb_exists. split.
  - intros (x & Hx & Heq). apply Z.eqb_eq in Heq. subst x.
    apply in_map_iff in Hx. destruct Hx as ([a b] & Hb & Hl).
    apply filter_In in Hl. destruct Hl as [Hl Ha].
    cbn in Hb, Ha. apply Z.eqb_eq in Ha. subst. exact Hl.
  - intros H. exists fid. split; [ | apply Z.eqb_refl ].
    apply in_map_iff. exists (k, fid). split; [ reflexivity | ].
    apply filter_In. split; [ exact H | ]. cbn. apply Z.eqb_refl.
Qed.

(** A loop that ends without an error keeps the links it found and has a
    link for every feed it went through. *)
Lemma link_all_done (k : Z) (fs : list Feed) (links links' : list (Z * Z)) :
  link_all k fs links = (None, links') ->
  incl links links'
  /\ (forall f, In f fs -> In (k, feed_id f) links')
  /\ (forall l, In l links' ->
        In l links \/ exists f, In f fs /\ l = (k, feed_id f)).
Proof.
  revert links. induction fs as [ | f rest IH ]; intros links; cbn [link_all].
  - intros H. inversion H; subst. repeat split; auto using incl_refl.
    intros f [].
  - unfold create_link. destruct (has_link k (feed_id f) links); [ discriminate | ].
    intros H. destruct (IH _ H) as (Hincl & Hall & Honly).
    split; [ | split ].
    + intros l Hl. apply Hincl. apply in_or_app. left. exact Hl.
    + intros g [-> | Hg]; [ | auto ].
      apply Hincl. apply in_or_app. right. left. reflexivity.
    + intros l Hl. destruct (Honly l Hl) as [Hin | (g & Hg & ->)].
      * apply in_app_or in Hin. destruct Hin as [Hin | [<- | []]]; [ auto | ].
        right. exists f. split; [ left; reflexivity | reflexivity ].
      * right. exists g. split; [ right; exact Hg | reflexivity ].
Qed.

Lemma link_missing_done (k : Z) (existing_feeds : list Z) (fs : list Feed)
    (links links' : list (Z * Z)) :
  link_missing k existing_feeds fs links = (None, links') ->
  incl links links'
  /\ (forall f, In f fs ->
        existsb (Z.eqb (feed_id f)) existing_feeds = true
        \/ In (k, feed_id f) links')
  /\ (forall l, In l links' ->
        In l links \/ exists f, In f fs /\ l = (k, feed_id f)).
Proof.
  revert links. induction fs as [ | f rest IH ]; intros links; cbn [link_missing].
  - intros H. inversion H; subst.
    repeat split; auto using incl_refl; try (intros f []).
  - destruct (existsb (Z.eqb (feed_id f)) existing_feeds) eqn:Hex.
    + intros H. destruct (IH _ H) as (Hincl & Hall & Honly).
      split; [ exact Hincl | split ].
      * intros g [<- | Hg]; [ left; exact Hex | auto ].
      * intros l Hl. destruct (Honly l Hl) as [Hin | (g & Hg & ->)]; [ auto | ].
        right. exists g. split; [ right; exact Hg | reflexivity ].
    + unfold create_link.
      destruct (has_link k (feed_id f) links); [ discriminate | ].
      intros H. destruct (IH _ H) as (Hincl & Hall & Honly).
      split; [ | split ].
      * intros l Hl. apply Hincl. apply in_or_app. left. exact Hl.
      * intros g [<- | Hg]; [ | auto ].
        right. apply Hincl. apply in_or_app. right. left. reflexivity.
      * intros l Hl. destruct (Honly l Hl) as [Hin | (g & Hg & ->)].
        -- apply in_app_or in Hin. destruct Hin as [Hin | [<- | []]]; [ auto | ].
           right. exists f. split; [ left; reflexivity | reflexivity ].
        -- right. exists g. split; [ right; exact Hg | reflexivity ].
Qed.

Lemma returned_artifact_after (new_id : Z) (artifact_name : string)
    (s s' : Store) (k : Z) (a : Artifact) :
  check_and_create_artifact new_id artifact_name s = (inr (Some (k, a)), s') ->
  name a = artifact_name
  /\ image_count a
     = total_images (filter (published artifact_name) (feeds s))
  /\ In (k, a) (artifacts s')
  /\ (forall f, In f (feeds s) -> published artifact_name f = true ->
        In (k, feed_id f) (artifact_feeds s'))
  /\ feeds s' = feeds s
  /\ incl (artifact_feeds s) (artifact_feeds s').
Proof.
  unfold check_and_create_artifact.
  destruct (first (filter (named artifact_name) (artifacts s)))
    as [ [k0 existing] | ] eqn:Hfirst.
  - destruct (link_missing _ _ _ _) as [[e | ] links] eqn:Hloop; [ discriminate | ].
    intros H. inversion H; subst; clear H. cbn [feeds artifacts artifact_feeds].
    apply first_in in Hfirst. apply filter_In in Hfirst.
    destruct Hfirst as [Hin Hname]. unfold named in Hname. cbn in Hname.
    apply String.eqb_eq in Hname.
    destruct (link_missing_done _ _ _ _ _ Hloop) as (Hincl & Hall & _).
    repeat split; auto.
    + unfold save_row. apply in_map_iff. exists (k, existing).
      cbn. rewrite Z.eqb_refl. auto.
    + intros f Hf Hpub.
      destruct (Hall f) as [Hex | Hl]; [ apply filter_In; auto | | exact Hl ].
      apply Hincl. apply existing_feeds_in. exact Hex.
  - destruct (total_images _ >=? 10)%Z; [ | discriminate ].
    destruct (has_key new_id (artifacts s)); [ discriminate | ].
    destruct (link_all _ _ _) as [[e | ] links] eqn:Hloop; [ discriminate | ].
    intros H. inversion H; subst; clear H. cbn [feeds artifacts artifact_feeds].
    destruct (link_all_done _ _ _ _ Hloop) as (Hincl & Hall & _).
    repeat split; auto.
    + apply in_or_app. right. left. reflexivity.
    + intros f Hf Hpub. apply Hall. apply filter_In. auto.
Qed.

(** X17: what a call that returns an artifact has done: the artifact has the name
    asked for and the image count of the published feeds of that name, it is
    stored under the returned key, it is linked to every one of those feeds,
    and the feeds and the links found are still there. *)
Theorem returned_artifact_is_linked (new_id : Z) (artifact_name : string)
    (s s' : Store) (k : Z) (a : Artifact) :
  check_and_create_artifact new_id artifact_name s = (inr (Some (k, a)), s') ->
  name a = artifact_name
  /\ image_count a
     = total_images (filter (published artifact_name) (feeds s))
  /\ In (k, a) (artifacts s')
  /\ (forall f, In f (feeds s) -> published artifact_name f = true ->
        In (k, feed_id f) (artifact_feeds s'))
  /\ feeds s' = feeds s
  /\ incl (artifact_feeds s) (artifact_feeds s').
Proof. apply returned_artifact_after. Qed.

Lemma returned_artifact_is_linked_witness :
  In (77%Z, 1%Z)
    (artifact_feeds (snd (check_and_create_artifact 77 "청동거울" fresh_store)))
  /\ In (77%Z, 4%Z)
       (artifact_feeds (snd (check_and_create_artifact 77 "청동거울" fresh_store))).
Proof.
  destruct (returned_artifact_is_linked 77 "청동거울" fresh_store
              (snd (check_and_create_artifact 77 "청동거울" fresh_store))
              77 (new_artifact "청동거울" 12) eq_refl)
    as (_ & _ & _ & Hlinks & _).
  split.
  - apply (Hlinks {| feed_id := 1; feed_artifact_name := "청동거울";
                     feed_status := "published"; images := six_images |});
      [ left; reflexivity | reflexivity ].
  - apply (Hlinks {| feed_id := 4; feed_artifact_name := "청동거울";
                     feed_status := "published"; images := six_images |});
      [ right; right; right; left; reflexivity | reflexivity ].
Defined.

Lemma returns_none_cases (new_id : Z) (artifact_name : string) (s : Store) :
  (fst (check_and_create_artifact new_id artifact_name s) = inr None
   <-> (forall r, In r (artifacts s) -> name (snd r) <> artifact_name)
       /\ (total_images (filter (published artifact_name) (feeds s)) < 10)%Z)
  /\ (fst (check_and_create_artifact new_id artifact_name s) = inr None
      -> snd (check_and_create_artifact new_id artifact_name s) = s).
Proof.
  unfold check_and_create_artifact.
  destruct (first (filter (named artifact_name) (artifacts s)))
    as [ [k0 existing] | ] eqn:Hfirst.
  - apply first_in in Hfirst. apply filter_In in Hfirst.
    destruct Hfirst as [Hin Hname]. unfold named in Hname.
    apply String.eqb_eq in Hname.
    destruct (link_missing _ _ _ _) as [[e | ] links]; cbn [fst snd];
      (split; [ split | ]; try discriminate;
       intros [Hno _]; exfalso; exact (Hno _ Hin Hname)).
  - apply first_none in Hfirst.
    assert (Hno : forall r, In r (artifacts s) -> name (snd r) <> artifact_name).
    { intros r Hr Hname.
      assert (Hf : In r (filter (named artifact_name) (artifacts s))).
      { apply filter_In. split; [ exact Hr | ].
        unfold named. apply String.eqb_eq. exact Hname. }
      rewrite Hfirst in Hf. exact Hf. }
    destruct (total_images _ >=? 10)%Z eqn:Htotal.
    + rewrite Z.geb_leb, Z.leb_le in Htotal.
      destruct (has_key new_id (artifacts s));
        [ | destruct (link_all _ _ _) as [[e | ] links] ]; cbn [fst snd];
        (split; [ split | ]; try discriminate; intros [_ Hlt]; lia).
    + rewrite Z.geb_leb, Z.leb_gt in Htotal. cbn [fst snd].
      split; [ split | ]; auto.
Qed.


(** X18: the call returns nothing exactly when no artifact has the name and the
    published feeds of the name have fewer than 10 images together; the store
    is then left as it was. *)
Theorem returns_none_iff (new_id : Z) (artifact_name : string) (s : Store) :
  (fst (check_and_create_artifact new_id artifact_name s) = inr None
   <-> (forall r, In r (artifacts s) -> name (snd r) <> artifact_name)
       /\ (total_images (filter (published artifact_name) (feeds s)) < 10)%Z)
  /\ (fst (check_and_create_artifact new_id artifact_name s) = inr None
      -> snd (check_and_create_artifact new_id artifact_name s) = s).
Proof. apply returns_none_cases. Qed.

Lemma returns_none_iff_witness :
  fst (check_and_create_artifact 77 "백자" fresh_store) = inr None.
Proof.
  apply (proj1 (returns_none_iff 77 "백자" fresh_store)).
  split.
  - intros r [].
  - reflexivity.
Defined.

(** A selection of rows with distinct keys has distinct keys. *)
Lemma filter_keeps_keys_distinct {V K} (keep : V -> bool) (key : V -> K)
    (rows : list V) (Hkeys : NoDup (map key rows)) :
  NoDup (map key (filter keep rows)).
Proof.
  induction rows as [ | r rows IH ]; cbn [map filter] in *; [ constructor | ].
  inversion Hkeys as [ | ? ? Hr Hrest ]; subst.
  destruct (keep r); [ | auto ].
  cbn [map]. constructor; [ | auto ].
  intros Hin. apply Hr. apply in_map_iff in Hin.
  destruct Hin as (y & Hy & Hin). apply filter_In in Hin.
  apply in_map_iff. exists y. tauto.
Qed.

Lemma NoDup_snoc {A} (l : list A) (x : A) :
  NoDup l -> ~ In x l -> NoDup (l ++ [x]).
Proof.
  intros Hl Hx. induction l as [ | y l IH ]; cbn [app].
  - constructor; [ intros [] | constructor ].
  - inversion Hl; subst. constructor.
    + intros Hin. apply in_app_or in Hin. destruct Hin as [Hin | [-> | []]].
      * contradiction.
      * apply Hx. left. reflexivity.
    + apply IH; [ assumption | ]. intros Hin. apply Hx. right. exact Hin.
Qed.

Lemma has_link_false (k fid : Z) (links : list (Z * Z)) :
  ~ In (k, fid) links -> has_link k fid links = false.
Proof.
  intros H. destruct (has_link k fid links) eqn:E; [ | reflexivity ].
  apply has_link_in in E. contradiction.
Qed.

(** With feeds of distinct keys, none of them linked yet, the loop of the
    first branch raises nothing and keeps the links unique. *)
Lemma link_all_ok (k : Z) (fs : list Feed) (links : list (Z * Z)) :
  NoDup (map feed_id fs) ->
  (forall f, In f fs -> ~ In (k, feed_id f) links) ->
  NoDup links ->
  exists links', link_all k fs links = (None, links') /\ NoDup links'.
Proof.
  revert links. induction fs as [ | f rest IH ]; intros links Hfs Hnew Hlinks.
  - exists links. split; [ reflexivity | exact Hlinks ].
  - cbn [link_all]. unfold create_link.
    rewrite has_link_false by (apply Hnew; left; reflexivity).
    cbn [map] in Hfs. inversion Hfs; subst.
    apply IH; [ assumption | | ].
    + intros g Hg Hin. apply in_app_or in Hin.
      destruct Hin as [Hin | [Heq | []]].
      * exact (Hnew g (or_intror Hg) Hin).
      * inversion Heq as [Hid]. apply H1. rewrite Hid.
        apply in_map. exact Hg.
    + apply NoDup_snoc; [ exact Hlinks | apply Hnew; left; reflexivity ].
Qed.

Lemma link_missing_ok (k : Z) (existing_feeds : list Z) (fs : list Feed)
    (links : list (Z * Z)) :
  NoDup (map feed_id fs) ->
  (forall f, In f fs ->
     existsb (Z.eqb (feed_id f)) existing_feeds = false ->
     ~ In (k, feed_id f) links) ->
  NoDup links ->
  exists links',
    link_missing k existing_feeds fs links = (None, links') /\ NoDup links'.
Proof.
  revert links. induction fs as [ | f rest IH ]; intros links Hfs Hnew Hlinks.
  - exists links. split; [ reflexivity | exact Hlinks ].
  - cbn [link_missing]. cbn [map] in Hfs. inversion Hfs; subst.
    destruct (existsb (Z.eqb (feed_id f)) existing_feeds) eqn:Hex.
    + apply IH; [ assumption | | assumption ].
      intros g Hg. apply Hnew. right. exact Hg.
    + unfold create_link.
      rewrite has_link_false by (apply Hnew; [ left; reflexivity | exact Hex ]).
      apply IH; [ assumption | | ].
      * intros g Hg Hgex Hin. apply in_app_or in Hin.
        destruct Hin as [Hin | [Heq | []]].
        -- exact (Hnew g (or_intror Hg) Hgex Hin).
        -- inversion Heq as [Hid]. apply H1. rewrite Hid.
           apply in_map. exact Hg.
      * apply NoDup_snoc; [ exact Hlinks | ].
        apply Hnew; [ left; reflexivity | exact Hex ].
Qed.

Lemma save_row_keys (k : Z) (a : Artifact) (rows : list (Z * Artifact)) :
  map fst (save_row k a rows) = map fst rows.
Proof.
  unfold save_row. rewrite map_map. apply map_ext_in.
  intros r _. destruct (fst r =? k)%Z eqn:E; [ | reflexivity ].
  apply Z.eqb_eq in E. cbn. congruence.
Qed.

(** X19: on a store that meets the constraints of the schema, with a key that is
    free, the call raises no [IntegrityError], and the store it leaves meets
    the constraints again: no second link for a pair, no link to a missing
    row. *)
Theorem linkage_keeps_constraints (new_id : Z) (artifact_name : string)
    (s : Store) :
  consistent s ->
  has_key new_id (artifacts s) = false ->
  exists result,
    fst (check_and_create_artifact new_id artifact_name s) = inr result
    /\ consistent (snd (check_and_create_artifact new_id artifact_name s)).
Proof.
  intros [Hfk Hak Hlu Hla Hlf] Hfresh.
  assert (Hfs : NoDup (map feed_id (filter (published artifact_name) (feeds s))))
    by (apply filter_keeps_keys_distinct; exact Hfk).
  assert (Hnew : ~ In new_id (map fst (artifacts s))).
  { intros Hin. apply has_key_in in Hin. congruence. }
  unfold check_and_create_artifact.
  destruct (first (filter (named artifact_name) (artifacts s)))
    as [ [k existing] | ] eqn:Hfirst.
  - apply first_in in Hfirst. apply filter_In in Hfirst.
    destruct Hfirst as [Hin _].
    destruct (link_missing_ok k
                (map snd (filter (fun l => (fst l =? k)%Z) (artifact_feeds s)))
                (filter (published artifact_name) (feeds s)) (artifact_feeds s)
                Hfs) as (links' & Hloop & Hnd); [ | exact Hlu | ].
    { intros f _ Hex Hl. apply existing_feeds_in in Hl. congruence. }
    rewrite Hloop. cbn [fst snd]. eexists. split; [ reflexivity | ].
    destruct (link_missing_done _ _ _ _ _ Hloop) as (_ & _ & Honly).
    constructor; cbn [feeds artifacts artifact_feeds]; auto.
    + rewrite save_row_keys. exact Hak.
    + intros l Hl. rewrite save_row_keys.
      destruct (Honly l Hl) as [Hold | (f & _ & ->)]; [ auto | ].
      cbn. apply in_map_iff. exists (k, existing). auto.
    + intros l Hl. destruct (Honly l Hl) as [Hold | (f & Hf & ->)]; [ auto | ].
      cbn. apply in_map. apply filter_In in Hf. tauto.
  - destruct (total_images _ >=? 10)%Z;
      [ | cbn [fst snd]; eexists; split;
          [ reflexivity | constructor; assumption ] ].
    rewrite Hfresh.
    destruct (link_all_ok new_id (filter (published artifact_name) (feeds s))
                (artifact_feeds s) Hfs) as (links' & Hloop & Hnd);
      [ | exact Hlu | ].
    { intros f _ Hl. apply Hnew. exact (Hla _ Hl). }
    rewrite Hloop. cbn [fst snd]. eexists. split; [ reflexivity | ].
    destruct (link_all_done _ _ _ _ Hloop) as (_ & _ & Honly).
    constructor; cbn [feeds artifacts artifact_feeds]; auto.
    + rewrite map_app. cbn [map fst]. apply NoDup_snoc; assumption.
    + intros l Hl. rewrite map_app. apply in_or_app.
      destruct (Honly l Hl) as [Hold | (f & _ & ->)]; [ auto | ].
      right. left. reflexivity.
    + intros l Hl. destruct (Honly l Hl) as [Hold | (f & Hf & ->)]; [ auto | ].
      cbn. apply in_map. apply filter_In in Hf. tauto.
Qed.

Lemma linkage_keeps_constraints_witness :
  exists result,
    fst (check_and_create_artifact 77 "청동거울" fresh_store) = inr result
    /\ consistent (snd (check_and_create_artifact 77 "청동거울" fresh_store)).
Proof.
  apply (linkage_keeps_constraints 77 "청동거울" fresh_store).
  - constructor; cbn.
    + repeat constructor; cbn; intuition discriminate.
    + constructor.
    + constructor.
    + intros l [].
    + intros l [].
  - reflexivity.
Defined.



Lemma unique_key (rows : list (Z * Artifact)) (k : Z) (a b : Artifact) :
  NoDup (map fst rows) -> In (k, a) rows -> In (k, b) rows -> a = b.
Proof.
  induction rows as [ | r rows IH ]; intros Hnd Ha Hb; [ destruct Ha | ].
  cbn [map] in Hnd. inversion Hnd; subst.
  destruct Ha as [-> | Ha], Hb as [Hb | Hb].
  - congruence.
  - exfalso. apply H1. apply (in_map fst) in Hb. exact Hb.
  - subst r. exfalso. apply H1. apply (in_map fst) in Ha. exact Ha.
  - auto.
Qed.

Lemma filter_map_commute {A} (p : A -> bool) (g : A -> A) (l : list A) :
  (forall x, In x l -> p (g x) = p x) ->
  filter p (map g l) = map g (filter p l).
Proof.
  induction l as [ | x l IH ]; intros H; [ reflexivity | ].
  cbn [map filter]. rewrite (H x (or_introl eq_refl)).
  rewrite IH by (intros y Hy; apply H; right; exact Hy).
  destruct (p x); reflexivity.
Qed.




Lemma artifacts_after (new_id : Z) (artifact_name : string) (s : Store) :
  match first (filter (named artifact_name) (artifacts s)) with
  | Some (k, existing) =>
      artifacts (snd (check_and_create_artifact new_id artifact_name s))
      = save_row k
          (set_image_count existing
             (total_images (filter (published artifact_name) (feeds s))))
          (artifacts s)
  | None =>
      artifacts (snd (check_and_create_artifact new_id artifact_name s))
      = artifacts s
      \/ artifacts (snd (check_and_create_artifact new_id artifact_name s))
         = (artifacts s
            ++ [(new_id,
                 new_artifact artifact_name
                   (total_images (filter (published artifact_name) (feeds s))))])%list
  end.
Proof.
  unfold check_and_create_artifact.
  destruct (first (filter (named artifact_name) (artifacts s)))
    as [ [k existing] | ].
  - destruct (link_missing _ _ _ _) as [[e | ] links]; reflexivity.
  - destruct (total_images _ >=? 10)%Z; [ | left; reflexivity ].
    destruct (has_key new_id (artifacts s)); [ left; reflexivity | ].
    destruct (link_all _ _ _) as [[e | ] links]; right; reflexivity.
Qed.



(** X22: the call never makes a second artifact of a name: for every name, the
    number of artifacts of that name is the same after the call as before,
    except that the name asked for, when it had none, may get one. *)
Theorem never_a_second_artifact (new_id : Z) (artifact_name other : string)
    (s : Store) :
  NoDup (map fst (artifacts s)) ->
  let before := List.length (filter (named other) (artifacts s)) in
  let after :=
    List.length
      (filter (named other)
         (artifacts (snd (check_and_create_artifact new_id artifact_name s)))) in
  after = before
  \/ (other = artifact_name /\ before = 0%nat /\ after = 1%nat).
Proof.
  intros Hkeys before after. subst before after.
  pose proof (artifacts_after new_id artifact_name s) as Hafter.
  destruct (first (filter (named artifact_name) (artifacts s)))
    as [ [k0 existing] | ] eqn:Hfirst.
  - rewrite Hafter. left.
    apply first_in in Hfirst. apply filter_In in Hfirst.
    destruct Hfirst as [Hex _].
    unfold save_row. rewrite filter_map_commute.
    + apply length_map.
    + intros [k1 a1] H1. cbn [fst].
      destruct (k1 =? k0)%Z eqn:E; [ | reflexivity ].
      apply Z.eqb_eq in E. subst k1.
      rewrite (unique_key _ _ _ _ Hkeys H1 Hex). reflexivity.
  - destruct Hafter as [-> | ->]; [ left; reflexivity | ].
    rewrite filter_app, length_app. cbn [filter].
    assert (Hn : forall t,
               named other (new_id, new_artifact artifact_name t)
               = String.eqb artifact_name other) by reflexivity.
    rewrite Hn.
    destruct (String.eqb artifact_name other) eqn:E.
    + apply String.eqb_eq in E. subst other. right.
      rewrite (first_none _ Hfirst). auto.
    + left. cbn. lia.
Qed.

Lemma never_a_second_artifact_witness :
  List.length
    (filter (named "청동거울")
       (artifacts
          (snd (check_and_create_artifact 78 "청동거울"
                  (snd (check_and_create_artifact 77 "청동거울" fresh_store))))))
  = 1%nat.
Proof.
  destruct (never_a_second_artifact 78 "청동거울" "청동거울"
              (snd (check_and_create_artifact 77 "청동거울" fresh_store)))
    as [H | (_ & H & _)].
  - repeat constructor. intros [].
  - exact H.
  - discriminate H.
Defined.

(** ** The list of views.py *)

Lemma insert_by_created_perm (x : Listed) (l : list Listed) :
  Permutation (x :: l) (insert_by_created x l).
Proof.
  induction l as [ | y l IH ]; cbn [insert_by_created]; [ reflexivity | ].
  destruct (created_at y <=? created_at x)%Z; [ reflexivity | ].
  rewrite perm_swap. apply perm_skip. exact IH.
Qed.

Lemma order_by_created_desc_perm (l : list Listed) :
  Permutation l (order_by_created_desc l).
Proof.
  induction l as [ | x l IH ]; [ reflexivity | ].
  cbn [order_by_created_desc fold_right].
  rewrite <- insert_by_created_perm. apply perm_skip. exact IH.
Qed.

Lemma insert_by_created_sorted (x : Listed) (l : list Listed) :
  StronglySorted newer_or_same l ->
  StronglySorted newer_or_same (insert_by_created x l).
Proof.
  induction l as [ | y l IH ]; intros Hl; cbn [insert_by_created].
  - constructor; constructor.
  - inversion Hl as [ | ? ? Hl' Hy ]; subst.
    destruct (created_at y <=? created_at x)%Z eqn:E.
    + apply Z.leb_le in E. constructor; [ exact Hl | ].
      constructor; [ exact E | ].
      rewrite Forall_forall in Hy |- *. intros z Hz.
      specialize (Hy z Hz). unfold newer_or_same in *. lia.
    + apply Z.leb_gt in E. constructor; [ apply IH; exact Hl' | ].
      rewrite Forall_forall in Hy |- *. intros z Hz.
      apply (Permutation_in _ (Permutation_sym (insert_by_created_perm x l)))
        in Hz.
      destruct Hz as [<- | Hz]; [ unfold newer_or_same; lia | auto ].
Qed.

Lemma order_by_created_desc_sorted (l : list Listed) :
  StronglySorted newer_or_same (order_by_created_desc l).
Proof.
  induction l as [ | x l IH ]; [ constructor | ].
  cbn [order_by_created_desc fold_right].
  apply insert_by_created_sorted. exact IH.
Qed.

Lemma artifact_list_view_cases (status_param : option string) (is_staff : bool)
    (table : list Listed) :
  exists selected,
    artifact_list_view status_param is_staff table
    = order_by_created_desc (filter selected table)
    /\ forall x,
         selected x = true
         <-> (status_filter status_param = "all"
              /\ (is_staff = true \/ status (row x) <> "rejected"))
             \/ (status_filter status_param <> "all"
                 /\ status (row x) = status_filter status_param).
Proof.
  unfold artifact_list_view.
  destruct (String.eqb (status_filter status_param) "all") eqn:Hall.
  - apply String.eqb_eq in Hall. destruct is_staff; cbn [andb].
    + exists (fun _ => true). split.
      * f_equal. symmetry. apply forallb_filter_id.
        apply forallb_forall. reflexivity.
      * intros x. split; [ auto | reflexivity ].
    + eexists. split; [ reflexivity | ].
      intros x. rewrite negb_true_iff, String.eqb_neq. split.
      * auto.
      * intros [[_ [H | H]] | [H _]]; [ discriminate | exact H | contradiction ].
  - apply String.eqb_neq in Hall. cbn [andb].
    eexists. split; [ reflexivity | ].
    intros x. rewrite String.eqb_eq. split.
    + auto.
    + intros [[H _] | [_ H]]; [ contradiction | exact H ].
Qed.

(** X23: the list of artifacts is the stored artifacts that the status filter
    lets through, each as often as it is stored, newest first.  With
    [status=all] a staff caller gets every artifact and any other caller
    every artifact that is not rejected; with any other status, or with none,
    which stands for [verified], every caller gets the artifacts of exactly
    that status. *)
Theorem list_is_selection_newest_first (status_param : option string)
    (is_staff : bool) (table : list Listed) :
  StronglySorted newer_or_same (artifact_list_view status_param is_staff table)
  /\ exists selected,
       Permutation (filter selected table)
         (artifact_list_view status_param is_staff table)
       /\ forall x,
            selected x = true
            <-> (status_filter status_param = "all"
                 /\ (is_staff = true \/ status (row x) <> "rejected"))
                \/ (status_filter status_param <> "all"
                    /\ status (row x) = status_filter status_param).
Proof.
  destruct (artifact_list_view_cases status_param is_staff table)
    as (selected & -> & Hsel).
  split; [ apply order_by_created_desc_sorted | ].
  exists selected. split; [ apply order_by_created_desc_perm | exact Hsel ].
Qed.

(** X24: a rejected artifact is never in the default list, and never in the list
    of a caller who is not staff and asks for all; it is listed for a staff
    caller who asks for all, and for any caller, staff or not, who asks for
    the status [rejected] by name. *)
Theorem rejected_listed_only_on_request (status_param : option string)
    (is_staff : bool) (table : list Listed) (x : Listed) :
  status (row x) = "rejected" ->
  (In x (artifact_list_view status_param is_staff table)
   <-> In x table
       /\ ((status_param = Some "all" /\ is_staff = true)
           \/ status_param = Some "rejected")).
Proof.
  intros Hrejected.
  destruct (artifact_list_view_cases status_param is_staff table)
    as (selected & -> & Hsel).
  assert (Hin : In x (order_by_created_desc (filter selected table))
                <-> In x table /\ selected x = true).
  { rewrite <- filter_In. split; apply Permutation_in.
    - apply Permutation_sym. apply order_by_created_desc_perm.
    - apply order_by_created_desc_perm. }
  rewrite Hin, Hsel, Hrejected. clear Hin Hsel.
  destruct status_param as [ s | ]; cbn [status_filter].
  - split; intros [Htable H]; (split; [ exact Htable | ]).
    + destruct H as [[-> [-> | H]] | [_ <-]]; auto; contradiction.
    + destruct H as [[H ->] | H]; inversion H; subst.
      * left. auto.
      * right. split; [ discriminate | reflexivity ].
  - split; intros [Htable H]; exfalso.
    + destruct H as [[H _] | [_ H]]; discriminate.
    + destruct H as [[H _] | H]; discriminate.
Qed.

Lemma rejected_listed_only_on_request_witness :
  In {| created_at := 1762000000000000; row := rejected_mirror |}
    (artifact_list_view (Some "rejected") false some_table).
Proof.
  apply (proj2 (rejected_listed_only_on_request (Some "rejected") false
                  some_table
                  {| created_at := 1762000000000000; row := rejected_mirror |}
                  eq_refl)).
  split; [ right; left; reflexivity | right; reflexivity ].
Defined.

(** ** More on the prompt builder of services.py *)

Lemma append_inv_head (a x y : string) : a ++ x = a ++ y -> x = y.
Proof.
  induction a as [ | c a IH ]; cbn [String.append]; intros H; [ exact H | ].
  inversion H. auto.
Qed.

Lemma cons_eq_inv {A} (x y : A) (l l' : list A) :
  x :: l = y :: l' -> x = y /\ l = l'.
Proof. intros H. inversion H. auto. Qed.

Lemma time_period_not_year (a b : string) :
  TIME_PERIOD_BULLET ++ a <> ESTIMATED_YEAR_BULLET ++ b.
Proof. cbn. discriminate. Qed.

Lemma time_period_not_origin (a b : string) :
  TIME_PERIOD_BULLET ++ a <> ORIGIN_LOCATION_BULLET ++ b.
Proof. cbn. discriminate. Qed.

Lemma year_not_origin (a b : string) :
  ESTIMATED_YEAR_BULLET ++ a <> ORIGIN_LOCATION_BULLET ++ b.
Proof. cbn. discriminate. Qed.

Ltac bullets_differ :=
  match goal with
  | H : TIME_PERIOD_BULLET ++ _ = ESTIMATED_YEAR_BULLET ++ _ |- _ =>
      exfalso; exact (time_period_not_year _ _ H)
  | H : ESTIMATED_YEAR_BULLET ++ _ = TIME_PERIOD_BULLET ++ _ |- _ =>
      exfalso; exact (time_period_not_year _ _ (eq_sym H))
  | H : TIME_PERIOD_BULLET ++ _ = ORIGIN_LOCATION_BULLET ++ _ |- _ =>
      exfalso; exact (time_period_not_origin _ _ H)
  | H : ORIGIN_LOCATION_BULLET ++ _ = TIME_PERIOD_BULLET ++ _ |- _ =>
      exfalso; exact (time_period_not_origin _ _ (eq_sym H))
  | H : ESTIMATED_YEAR_BULLET ++ _ = ORIGIN_LOCATION_BULLET ++ _ |- _ =>
      exfalso; exact (year_not_origin _ _ H)
  | H : ORIGIN_LOCATION_BULLET ++ _ = ESTIMATED_YEAR_BULLET ++ _ |- _ =>
      exfalso; exact (year_not_origin _ _ (eq_sym H))
  end.

Ltac compare_lines :=
  repeat match goal with
         | H : _ :: _ = _ :: _ |- _ =>
             apply cons_eq_inv in H; destruct H as [? H]
         | H : [] = _ :: _ |- _ => discriminate H
         | H : _ :: _ = [] |- _ => discriminate H
         end.

(** X25: for names and fields with no line break in them, the prompt tells the
    inputs apart: two prompts are equal only when the names are equal and
    each optional field is present in both or in neither, with the same
    text. *)
Theorem prompt_determines_inputs (n n' : string)
    (tp tp' ey ey' ol ol' : option string) :
  single_line n = true -> single_line n' = true ->
  single_line (text tp) = true -> single_line (text tp') = true ->
  single_line (text ey) = true -> single_line (text ey') = true ->
  single_line (text ol) = true -> single_line (text ol') = true ->
  _create_prompt n tp ey ol = _create_prompt n' tp' ey' ol' ->
  n = n'
  /\ line_if_present TIME_PERIOD_BULLET tp
     = line_if_present TIME_PERIOD_BULLET tp'
  /\ line_if_present ESTIMATED_YEAR_BULLET ey
     = line_if_present ESTIMATED_YEAR_BULLET ey'
  /\ line_if_present ORIGIN_LOCATION_BULLET ol
     = line_if_present ORIGIN_LOCATION_BULLET ol'.
Proof.
  intros Hn Hn' Htp Htp' Hey Hey' Hol Hol' H.
  apply (f_equal splitlines) in H.
  rewrite (prompt_lines n tp ey ol Hn Htp Hey Hol) in H.
  rewrite (prompt_lines n' tp' ey' ol' Hn' Htp' Hey' Hol') in H.
  apply app_inv_head in H. cbn [app] in H.
  apply cons_eq_inv in H. destruct H as [Hname H].
  split; [ exact (append_inv_head _ _ _ Hname) | ].
  rewrite !app_assoc in H. apply app_inv_tail in H.
  unfold line_if_present in *.
  destruct (truthy_opt tp), (truthy_opt tp'), (truthy_opt ey),
    (truthy_opt ey'), (truthy_opt ol), (truthy_opt ol');
    cbn [app] in H; compare_lines; try bullets_differ;
    repeat match goal with
           | H : ?b ++ _ = ?b ++ _ |- _ => apply append_inv_head in H; rewrite H
           end;
    repeat split; reflexivity.
Qed.

Lemma prompt_determines_inputs_witness :
  "청동거울" = "청동거울"
  /\ line_if_present TIME_PERIOD_BULLET (Some "고려")
     = line_if_present TIME_PERIOD_BULLET (Some "고려")
  /\ line_if_present ESTIMATED_YEAR_BULLET None
     = line_if_present ESTIMATED_YEAR_BULLET (Some "")
  /\ line_if_present ORIGIN_LOCATION_BULLET (Some "개성")
     = line_if_present ORIGIN_LOCATION_BULLET (Some "개성").
Proof.
  apply (prompt_determines_inputs "청동거울" "청동거울"
           (Some "고려") (Some "고려") None (Some "") (Some "개성") (Some "개성"));
    reflexivity.
Defined.

(** Without the condition on line breaks the prompt does not tell the inputs
    apart: a name that carries a line break and a bullet makes the prompt of
    another artifact. *)
Example name_with_line_break_imitates_field :
  _create_prompt ("청동거울" ++ NL ++ TIME_PERIOD_BULLET ++ "고려") None None None
  = _create_prompt "청동거울" (Some "고려") None None.
Proof. vm_compute. reflexivity. Qed.
